(** * DocketChatbot: the conversation workflow of [src/App.tsx]

    A shallow embedding of the React component [App]: its state cells
    ([messages], [input], [isTyping], [currentDocket], [pendingPodImage]),
    the helpers [addMessage], [updateMessageStatus], [fetchDocket],
    [updateDocketStatus], [analyzePOD] and the handlers [handleSend] and
    [handleFileUpload], followed by the properties of the workflow.

    Modelling conventions.
    - A JavaScript string is a [string] whose characters are code units
      below 256; [toLowerCase], [trim] and the regular expression
      [/DKT-\d+/i] are the JavaScript ones restricted to that alphabet.
    - A handler is a computation in the state monad [Act] over the record
      [App].  The values a handler closes over (React gives it the state of
      the render that created it) are passed as the snapshot [r]; the
      setters act on the current state.
    - What the outside world answers (the identifier drawn by
      [Math.random], the HTTP replies, the replies of the language model)
      is an argument of the handler; the requests sent are appended to the
      ghost field [requests].
    - A text submission runs to completion as one event.  [analyzePOD]
      suspends at its call of the vision model: the suspended continuation
      is kept in the ghost field [inflight] and resumed by a later event. *)

From Stdlib Require Import String Ascii List Bool Arith Lia.
Import ListNotations.
Open Scope string_scope.

(** ** JavaScript strings *)

Module Js.

Definition code (c : ascii) : nat := nat_of_ascii c.

(** [A]-[Z], and the capital letters of the Latin-1 block ([U+00C0]-[U+00DE]
    without the multiplication sign [U+00D7]). *)
Definition isUpper (c : ascii) : bool :=
  ((65 <=? code c)%nat && (code c <=? 90)%nat)
  || ((192 <=? code c)%nat && (code c <=? 222)%nat && negb (code c =? 215)%nat).

Definition lowerChar (c : ascii) : ascii :=
  if isUpper c then ascii_of_nat (code c + 32) else c.

Fixpoint toLowerCase (s : string) : string :=
  match s with
  | EmptyString => EmptyString
  | String c s' => String (lowerChar c) (toLowerCase s')
  end.

Definition isLowerAscii (c : ascii) : bool :=
  (97 <=? code c)%nat && (code c <=? 122)%nat.

Definition upperAsciiChar (c : ascii) : ascii :=
  if isLowerAscii c then ascii_of_nat (code c - 32) else c.

(** [toUpperCase] on the strings the program applies it to: the matches of
    [/DKT-\d+/i], made of ASCII letters, a hyphen and digits. *)
Fixpoint toUpperCase (s : string) : string :=
  match s with
  | EmptyString => EmptyString
  | String c s' => String (upperAsciiChar c) (toUpperCase s')
  end.

(** White space and line terminators below 256: TAB, LF, VT, FF, CR, SP and
    the no-break space. *)
Definition isSpace (c : ascii) : bool :=
  ((9 <=? code c)%nat && (code c <=? 13)%nat)
  || (code c =? 32)%nat || (code c =? 160)%nat.

Definition isEmpty (s : string) : bool :=
  match s with EmptyString => true | String _ _ => false end.

Fixpoint trimStart (s : string) : string :=
  match s with
  | EmptyString => EmptyString
  | String c s' => if isSpace c then trimStart s' else s
  end.

Fixpoint trimEnd (s : string) : string :=
  match s with
  | EmptyString => EmptyString
  | String c s' =>
      let t := trimEnd s' in
      if isSpace c && isEmpty t then EmptyString else String c t
  end.

Definition trim (s : string) : string := trimEnd (trimStart s).

Fixpoint startsWith (needle s : string) : bool :=
  match needle, s with
  | EmptyString, _ => true
  | String a needle', String b s' => Ascii.eqb a b && startsWith needle' s'
  | String _ _, EmptyString => false
  end.

(** [s.includes(needle)] *)
Fixpoint includes (needle s : string) : bool :=
  startsWith needle s
  || match s with
     | EmptyString => false
     | String _ s' => includes needle s'
     end.

(** [a || b] on strings that may be [undefined]: the empty string is falsy. *)
Definition orElse (a : option string) (b : string) : string :=
  match a with
  | Some (String c s) => String c s
  | _ => b
  end.

(** Truthiness of a [string | null]. *)
Definition truthy (a : option string) : bool :=
  match a with
  | Some s => negb (isEmpty s)
  | None => false
  end.

(** [s.split(',')[1]]: the text between the first and the second comma,
    [undefined] when [s] has no comma. *)
Fixpoint upToComma (s : string) : string :=
  match s with
  | EmptyString => EmptyString
  | String c s' => if Ascii.eqb c "," then EmptyString else String c (upToComma s')
  end.

Fixpoint splitComma1 (s : string) : option string :=
  match s with
  | EmptyString => None
  | String c s' => if Ascii.eqb c "," then Some (upToComma s') else splitComma1 s'
  end.

(** *** The regular expression [/DKT-\d+/i] *)

Definition isDigit (c : ascii) : bool :=
  (48 <=? code c)%nat && (code c <=? 57)%nat.

(** Case-insensitive comparison with an ASCII capital letter of the
    pattern. *)
Definition eqCI (pat c : ascii) : bool :=
  Ascii.eqb c pat || Ascii.eqb c (lowerChar pat).

Fixpoint digits (s : string) : string :=
  match s with
  | EmptyString => EmptyString
  | String c s' => if isDigit c then String c (digits s') else EmptyString
  end.

(** The match that starts at the first character of [s], if any; [\d+] is
    greedy. *)
Definition matchHere (s : string) : option string :=
  match s with
  | String d (String k (String t (String h rest))) =>
      if eqCI "D" d && eqCI "K" k && eqCI "T" t && Ascii.eqb h "-"
      then match digits rest with
           | EmptyString => None
           | ds => Some (String d (String k (String t (String h ds))))
           end
      else None
  | _ => None
  end.

(** [s.match(/DKT-\d+/i)]: element 0 of the result, the leftmost match. *)
Fixpoint docketMatch (s : string) : option string :=
  match matchHere s with
  | Some m => Some m
  | None =>
      match s with
      | EmptyString => None
      | String _ s' => docketMatch s'
      end
  end.

End Js.

Import Js.

(** ** Data model *)

Inductive Role := user | assistant.

Inductive Status := loading | success | error.

Module Message.
Record t := mk {
  id : string;
  role : Role;
  content : string;
  image : option string;
  status : option Status
}.
End Message.

Module Docket.
Record t := mk {
  id : string;
  customer_name : string;
  delivery_address : string;
  status : string;
  pod_verified : nat;
  updated_at : string
}.
End Docket.

(** [Omit<Message, 'id'>], the argument of [addMessage]. *)
Record Draft := {
  d_role : Role;
  d_content : string;
  d_image : option string;
  d_status : option Status
}.

(** ** The outside world *)

(** Requests the component sends. *)
Inductive Request :=
| GetDocket (id : string)
    (* fetch(`/api/dockets/${id}`) *)
| PostUpdate (id status : string) (verified : bool)
    (* fetch(`/api/dockets/${id}/update`, POST {status, pod_verified}) *)
| GenerateVision (id customer address : string) (data : option string)
    (* generateContent with the POD prompt on a docket and the image data *)
| GenerateText (contents : string).
    (* generateContent on the user's text *)

(** Outcome of [fetch] on [GET /api/dockets/:id].  The server answers 200
    with the row of the docket, as JSON, and 404 otherwise. *)
Inductive GetReply :=
| GetOk (data : Docket.t)   (* res.ok, body parsed *)
| GetNotOk                  (* !res.ok *)
| GetThrows.                (* fetch or res.json() rejected *)

(** Outcome of [fetch] on [POST /api/dockets/:id/update]. *)
Inductive PostReply :=
| PostReplied (ok : bool)   (* res.ok *)
| PostThrows.               (* fetch rejected *)

(** Outcome of [genAI.models.generateContent]; [result.text] may be
    [undefined]. *)
Inductive GenReply :=
| GenReturns (text : option string)
| GenThrows.

(** What the world supplies to one run of [handleSend]: the identifiers of
    the (at most two) messages it adds and the replies to the (at most one)
    request it sends. *)
Record Env := {
  id1 : string;
  id2 : string;
  getReply : GetReply;
  postReply : PostReply;
  genReply : GenReply
}.

(** A suspended [analyzePOD]: what its continuation closes over. *)
Record Job := {
  msgId : string;
  base64Image : string;
  docket : Docket.t
}.

(** ** Component state *)

Record App := {
  messages : list Message.t;
  input : string;
  isTyping : bool;
  currentDocket : option Docket.t;
  pendingPodImage : option string;
  inflight : list Job;       (* ghost: suspended analyzePOD calls *)
  requests : list Request    (* ghost: requests sent so far *)
}.

Definition greeting : string :=
  "Hello! I'm your POD Verification Assistant. Please provide a **Docket Number** to get started, or upload a **POD image** directly if you have one ready.".

Definition initial : App := {|
  messages := [Message.mk "1" assistant greeting None None];
  input := "";
  isTyping := false;
  currentDocket := None;
  pendingPodImage := None;
  inflight := [];
  requests := []
|}.

(** ** The state monad of handlers *)

Definition Act (A : Type) : Type := App -> A * App.

Definition ret {A} (a : A) : Act A := fun s => (a, s).

Definition bind {A B} (m : Act A) (k : A -> Act B) : Act B :=
  fun s => let (a, s') := m s in k a s'.

Definition exec {A} (m : Act A) (s : App) : App := snd (m s).

Declare Scope act_scope.
Delimit Scope act_scope with act.
Notation "x <- m ;; k" := (bind m (fun x => k))
  (at level 61, m at next level, right associativity) : act_scope.
Notation "m ;; k" := (bind m (fun _ => k))
  (at level 61, right associativity) : act_scope.
Open Scope act_scope.

Definition modify (f : App -> App) : Act unit := fun s => (tt, f s).

Definition setMessages (f : list Message.t -> list Message.t) : Act unit :=
  modify (fun s => {| messages := f (messages s); input := input s;
                      isTyping := isTyping s; currentDocket := currentDocket s;
                      pendingPodImage := pendingPodImage s;
                      inflight := inflight s; requests := requests s |}).

Definition setInput (v : string) : Act unit :=
  modify (fun s => {| messages := messages s; input := v;
                      isTyping := isTyping s; currentDocket := currentDocket s;
                      pendingPodImage := pendingPodImage s;
                      inflight := inflight s; requests := requests s |}).

Definition setIsTyping (v : bool) : Act unit :=
  modify (fun s => {| messages := messages s; input := input s;
                      isTyping := v; currentDocket := currentDocket s;
                      pendingPodImage := pendingPodImage s;
                      inflight := inflight s; requests := requests s |}).

Definition setCurrentDocket (v : option Docket.t) : Act unit :=
  modify (fun s => {| messages := messages s; input := input s;
                      isTyping := isTyping s; currentDocket := v;
                      pendingPodImage := pendingPodImage s;
                      inflight := inflight s; requests := requests s |}).

Definition setPendingPodImage (v : option string) : Act unit :=
  modify (fun s => {| messages := messages s; input := input s;
                      isTyping := isTyping s; currentDocket := currentDocket s;
                      pendingPodImage := v;
                      inflight := inflight s; requests := requests s |}).

Definition setInflight (f : list Job -> list Job) : Act unit :=
  modify (fun s => {| messages := messages s; input := input s;
                      isTyping := isTyping s; currentDocket := currentDocket s;
                      pendingPodImage := pendingPodImage s;
                      inflight := f (inflight s); requests := requests s |}).

(** Record that a request leaves the component. *)
Definition send (q : Request) : Act unit :=
  modify (fun s => {| messages := messages s; input := input s;
                      isTyping := isTyping s; currentDocket := currentDocket s;
                      pendingPodImage := pendingPodImage s;
                      inflight := inflight s; requests := (requests s ++ [q])%list |}).

(** ** The helpers of [App] *)

(** [fresh] is the value of [Math.random().toString(36).substring(7)]. *)
Definition addMessage (fresh : string) (msg : Draft) : Act string :=
  let newMsg := Message.mk fresh (d_role msg) (d_content msg) (d_image msg) (d_status msg) in
  setMessages (fun prev => (prev ++ [newMsg])%list) ;;
  ret (Message.id newMsg).

(** [{ ...m, status, content: content ?? m.content }] *)
Definition withStatus (st : option Status) (c : option string) (m : Message.t) : Message.t :=
  Message.mk (Message.id m) (Message.role m)
    (match c with Some c' => c' | None => Message.content m end)
    (Message.image m) st.

Definition updateMessageStatus (id : string) (st : option Status) (c : option string)
  : Act unit :=
  setMessages (map (fun m => if String.eqb (Message.id m) id then withStatus st c m else m)).

Definition fetchDocket (reply : GetReply) (id : string) : Act (option Docket.t) :=
  send (GetDocket id) ;;
  match reply with
  | GetOk data => setCurrentDocket (Some data) ;; ret (Some data)
  | GetNotOk => ret None
  | GetThrows => ret None
  end.

Definition updateDocketStatus (reply : PostReply) (id status : string) (verified : bool)
  : Act bool :=
  send (PostUpdate id status verified) ;;
  match reply with
  | PostReplied ok => ret ok
  | PostThrows => ret false
  end.

Definition apology : string :=
  "Sorry, I encountered an error while analyzing the POD. Please try again.".

Definition notAnalyzed : string := "I couldn't analyze the image properly.".

(** [analyzePOD], from its first statement to the [await]. *)
Definition analyzePOD_start (fresh : string) (img : string) (d : Docket.t) : Act unit :=
  setIsTyping true ;;
  i <- addMessage fresh
         {| d_role := assistant;
            d_content := "Analyzing POD image against docket details...";
            d_image := None; d_status := Some loading |} ;;
  send (GenerateVision (Docket.id d) (Docket.customer_name d) (Docket.delivery_address d)
          (splitComma1 img)) ;;
  setInflight (fun js => (js ++ [{| msgId := i; base64Image := img; docket := d |}])%list).

(** [analyzePOD], from the [await] to the end: the rest of the [try] block,
    [catch] and [finally]. *)
Definition analyzePOD_resume (j : Job) (reply : GenReply) : Act unit :=
  match reply with
  | GenReturns text =>
      let responseText := orElse text notAnalyzed in
      updateMessageStatus (msgId j) (Some success) (Some responseText) ;;
      (if includes "pod is good" (toLowerCase responseText)
       then setPendingPodImage (Some (base64Image j))
       else ret tt)
  | GenThrows =>
      updateMessageStatus (msgId j) (Some error) (Some apology)
  end ;;
  setIsTyping false.

(** [analyzePOD] on the [null] a failed file read leaves in [reader.result]:
    [base64Image.split] throws inside the [try], before any request. *)
Definition analyzePOD_null (fresh : string) : Act unit :=
  setIsTyping true ;;
  i <- addMessage fresh
         {| d_role := assistant;
            d_content := "Analyzing POD image against docket details...";
            d_image := None; d_status := Some loading |} ;;
  updateMessageStatus i (Some error) (Some apology) ;;
  setIsTyping false.

(** ** The handlers *)

Definition plain (r : Role) (c : string) : Draft :=
  {| d_role := r; d_content := c; d_image := None; d_status := None |}.

Definition updatedText (d : Docket.t) : string :=
  "Successfully updated docket **" ++ Docket.id d
  ++ "** status to **Delivered**. POD has been verified and recorded.".

Definition foundText (d : Docket.t) : string :=
  "Found Docket: **" ++ Docket.id d ++ "**

**Customer:** " ++ Docket.customer_name d ++ "
**Address:** " ++ Docket.delivery_address d ++ "
**Status:** " ++ Docket.status d ++ "

Please upload the POD image for verification.".

Definition notFoundText (docketId : string) : string :=
  "Sorry, I couldn't find docket **" ++ docketId
  ++ "**. Try DKT-1001, DKT-1002, or DKT-1003.".

(** [handleSend].  [r] is the render the handler belongs to: it reads
    [input], [currentDocket] and [pendingPodImage] there. *)
Definition handleSend (r : App) (env : Env) : Act unit :=
  if isEmpty (trim (input r)) then ret tt
  else
    let userMsg := trim (input r) in
    setInput "" ;;
    addMessage (id1 env) (plain user userMsg) ;;
    (* Logic for "update" *)
    if includes "update" (toLowerCase userMsg)
       || includes "please update" (toLowerCase userMsg)
    then
      match currentDocket r with
      | Some d =>
          if truthy (pendingPodImage r)
          then
            setIsTyping true ;;
            ok <- updateDocketStatus (postReply env) (Docket.id d) "Delivered" true ;;
            (if ok : bool
             then addMessage (id2 env) (plain assistant (updatedText d)) ;;
                  setPendingPodImage None
             else addMessage (id2 env)
                    (plain assistant "Failed to update the docket. Please try again.") ;;
                  ret tt) ;;
            setIsTyping false
          else
            addMessage (id2 env)
              (plain assistant
                 "I haven't verified a POD for this docket yet. Please upload the POD image first.") ;;
            ret tt
      | None =>
          addMessage (id2 env) (plain assistant "Please provide a docket number first.") ;;
          ret tt
      end
    else
      (* Logic for Docket Search *)
      match docketMatch userMsg with
      | Some m =>
          setIsTyping true ;;
          let docketId := toUpperCase m in
          found <- fetchDocket (getReply env) docketId ;;
          match found with
          | Some d => addMessage (id2 env) (plain assistant (foundText d))
          | None => addMessage (id2 env) (plain assistant (notFoundText docketId))
          end ;;
          setIsTyping false
      | None =>
          (* Default AI response for other queries *)
          setIsTyping true ;;
          send (GenerateText userMsg) ;;
          match genReply env with
          | GenReturns text =>
              addMessage (id2 env)
                (plain assistant (orElse text "I'm not sure how to help with that."))
          | GenThrows =>
              addMessage (id2 env)
                (plain assistant "I'm having trouble connecting right now.")
          end ;;
          setIsTyping false
      end.

(** What [reader.readAsDataURL] leaves in [reader.result]: a data URL,
    that is the text [data:] followed by media type and payload, or [null]
    after a failed read. *)
Inductive FileRead :=
| ReadOk (rest : string)
| ReadFails.

Definition dataURL (rest : string) : string := "data:" ++ rest.

(** [handleFileUpload] together with the [onloadend] callback it installs;
    [file] is [e.target.files?.[0]]. *)
Definition handleFileUpload (r : App) (file : option FileRead) (i1 i2 : string)
  : Act unit :=
  match file with
  | None => ret tt
  | Some f =>
      match currentDocket r with
      | None =>
          addMessage i1
            (plain assistant
               "Please search for a docket (e.g., DKT-1001) before uploading the POD.") ;;
          ret tt
      | Some d =>
          match f with
          | ReadOk rest =>
              let base64 := dataURL rest in
              addMessage i1
                {| d_role := user; d_content := "Uploaded POD image";
                   d_image := Some base64; d_status := None |} ;;
              analyzePOD_start i2 base64 d
          | ReadFails =>
              addMessage i1 (plain user "Uploaded POD image") ;;
              analyzePOD_null i2
          end
      end
  end.

(** ** Events *)

Inductive Event :=
| Typed (text : string)
    (* onChange of the text box *)
| Submit (env : Env)
    (* onSubmit of the form *)
| Suggest (k : nat) (env : Env)
    (* click on the k-th suggested docket, shown while no docket is active *)
| ConfirmUpdate (env : Env)
    (* click on "Confirm Update", shown while a docket and a POD are held *)
| FileChosen (file : option FileRead) (i1 i2 : string)
    (* onChange of the file input *)
| Answer (k : nat) (reply : GenReply)
    (* the vision model settles the k-th suspended analyzePOD *)
| Reset.
    (* click on the refresh button of the header *)

Definition suggestions : list string := ["DKT-1001"; "DKT-1002"; "DKT-1003"].

Fixpoint removeNth {A} (k : nat) (l : list A) : list A :=
  match l, k with
  | [], _ => []
  | _ :: l', O => l'
  | a :: l', S k' => a :: removeNth k' l'
  end.

Definition isSome {A} (o : option A) : bool :=
  match o with Some _ => true | None => false end.

(** One event, handled on the state it meets.  A button that is not
    rendered cannot be clicked; the [disabled] attribute of the send button
    is not modelled, so [handleSend] may run in every state. *)
Definition step (s : App) (e : Event) : App :=
  match e with
  | Typed text => exec (setInput text) s
  | Submit env => exec (handleSend s env) s
  | Suggest k env =>
      match currentDocket s, nth_error suggestions k with
      | None, Some id => exec (setInput id ;; handleSend s env) s
      | _, _ => s
      end
  | ConfirmUpdate env =>
      if isSome (currentDocket s) && truthy (pendingPodImage s)
      then exec (setInput "Please update" ;; handleSend s env) s
      else s
  | FileChosen file i1 i2 => exec (handleFileUpload s file i1 i2) s
  | Answer k reply =>
      match nth_error (inflight s) k with
      | Some j => exec (setInflight (removeNth k) ;; analyzePOD_resume j reply) s
      | None => s
      end
  | Reset =>
      if isSome (currentDocket s) then exec (setCurrentDocket None) s else s
  end.

Definition run (s : App) (es : list Event) : App := fold_left step es s.

Definition reachable (s : App) : Prop := exists es, s = run initial es.

(** ** The intents of a message, read off the branches of [handleSend] *)

Inductive Intent :=
| RequestCommit
| DocketLookup (id : string)
| Freeform.

Definition classify (userMsg : string) : Intent :=
  if includes "update" (toLowerCase userMsg)
     || includes "please update" (toLowerCase userMsg)
  then RequestCommit
  else match docketMatch userMsg with
       | Some m => DocketLookup (toUpperCase m)
       | None => Freeform
       end.

(** Session states of the workflow. *)
Inductive Phase := NoDocket | DocketActive | EvidencePending | EvidenceOnly.

Definition phase (s : App) : Phase :=
  match currentDocket s, truthy (pendingPodImage s) with
  | None, false => NoDocket
  | Some _, false => DocketActive
  | Some _, true => EvidencePending
  | None, true => EvidenceOnly
  end.

(** ** Sample data: the rows the server seeds, and a few worlds *)

Definition seeded (id name address : string) : Docket.t :=
  Docket.mk id name address "Pending" 0 "2024-01-01 00:00:00".

Definition dkt1001 : Docket.t := seeded "DKT-1001" "John Doe" "123 Maple St, Springfield".
Definition dkt1002 : Docket.t := seeded "DKT-1002" "Jane Smith" "456 Oak Ave, Metropolis".
Definition dkt1003 : Docket.t := seeded "DKT-1003" "Acme Corp" "789 Industrial Way, Gotham".

Definition jpeg : string := "image/jpeg;base64,/9j/4AAQSkZJRg==".

Definition photo : string := dataURL jpeg.

Definition goodVerdict : string := "Signature found, address matches. This POD is good.".

Definition badVerdict : string := "The image is blurry and no signature is visible. This POD is BAD.".

(** A world in which docket [d] is served and every update succeeds. *)
Definition serving (a b : string) (d : Docket.t) : Env :=
  {| id1 := a; id2 := b; getReply := GetOk d;
     postReply := PostReplied true; genReply := GenReturns (Some "Sure.") |}.

(** A world in which the store is unreachable. *)
Definition offline (a b : string) : Env :=
  {| id1 := a; id2 := b; getReply := GetThrows;
     postReply := PostThrows; genReply := GenThrows |}.

(** A world in which the store answers 404. *)
Definition missing (a b : string) : Env :=
  {| id1 := a; id2 := b; getReply := GetNotOk;
     postReply := PostReplied false; genReply := GenReturns None |}.

(** Look up DKT-1001, upload a photo, have it accepted. *)
Definition toEvidence : list Event :=
  [ Typed "DKT-1001"; Submit (serving "u1" "a1" dkt1001);
    FileChosen (Some (ReadOk jpeg)) "u2" "a2";
    Answer 0 (GenReturns (Some goodVerdict)) ].

Definition atEvidence : App := run initial toEvidence.

(** Look up DKT-1001 and upload a photo; the verdict is outstanding. *)
Definition toAnalysing : list Event :=
  [ Typed "DKT-1001"; Submit (serving "u1" "a1" dkt1001);
    FileChosen (Some (ReadOk jpeg)) "u2" "a2" ].

Definition atAnalysing : App := run initial toAnalysing.

(** ** Needles that survive [trim] *)

Definition firstNonSpace (n : string) : bool :=
  match n with
  | EmptyString => false
  | String a _ => negb (isSpace a)
  end.

Fixpoint lastNonSpace (n : string) : bool :=
  match n with
  | EmptyString => false
  | String a EmptyString => negb (isSpace a)
  | String _ n' => lastNonSpace n'
  end.

(** Strings made of white space only, the empty string among them. *)
Fixpoint allSpace (s : string) : bool :=
  match s with
  | EmptyString => true
  | String c s' => isSpace c && allSpace s'
  end.

(** Every job waits for a message of the log and holds a non-empty image. *)
Definition jobsTracked (s : App) : Prop :=
  forall j, In j (inflight s) ->
    isEmpty (base64Image j) = false
    /\ exists m, In m (messages s) /\ Message.id m = msgId j.

(** The state invariant of the workflow, with the jobs that may still set
    evidence. *)
Definition scoped (s : App) : Prop :=
  currentDocket s = None -> pendingPodImage s = None /\ inflight s = [].

Definition isReset (e : Event) : bool :=
  match e with Reset => true | _ => false end.

(** ** Identifiers of dockets *)

Fixpoint allDigits (s : string) : bool :=
  match s with
  | EmptyString => true
  | String c s' => isDigit c && allDigits s'
  end.

(** The text [DKT-] followed by one digit or more. *)
Definition isDocketId (id : string) : bool :=
  match id with
  | String a (String b (String c (String h ds))) =>
      Ascii.eqb a "D" && Ascii.eqb b "K" && Ascii.eqb c "T" && Ascii.eqb h "-"
      && negb (isEmpty ds) && allDigits ds
  | _ => false
  end.

(** A token of [/DKT-\d+/i]: a docket identifier up to the case of its
    letters. *)
Definition isToken (tok : string) : bool := isDocketId (toUpperCase tok).

(** What identifies a message for the reader of the log, and what no
    operation rewrites. *)
Definition skeleton (m : Message.t) : string * Role * option string :=
  (Message.id m, Message.role m, Message.image m).

(** The environment of the event, for the events that run [handleSend]. *)
Definition submitEnv (e : Event) : option Env :=
  match e with
  | Submit env => Some env
  | Suggest _ env => Some env
  | ConfirmUpdate env => Some env
  | _ => None
  end.

(** ** The server: the table [dockets] and the two routes *)

Module Server.

(** The rows of [dockets], in the order of insertion. *)
Definition Table : Type := list Docket.t.

(** [INSERT INTO dockets (id, customer_name, delivery_address)]: status,
    pod_verified and updated_at take their defaults; [now] is
    CURRENT_TIMESTAMP. *)
Definition inserted (now id name address : string) : Docket.t :=
  Docket.mk id name address "Pending" 0 now.

(** Seed some data if empty; [t1], [t2], [t3] are the times of the three
    insertions. *)
Definition seed (t1 t2 t3 : string) (db : Table) : Table :=
  if (length db =? 0)%nat
  then (db ++ [ inserted t1 "DKT-1001" "John Doe" "123 Maple St, Springfield";
                inserted t2 "DKT-1002" "Jane Smith" "456 Oak Ave, Metropolis";
                inserted t3 "DKT-1003" "Acme Corp" "789 Industrial Way, Gotham" ])%list
  else db.

(** [SELECT * FROM dockets WHERE id = ?], first row. *)
Definition selectById (id : string) (db : Table) : option Docket.t :=
  find (fun r => String.eqb (Docket.id r) id) db.

(** [UPDATE dockets SET status = ?, pod_verified = ?, updated_at =
    CURRENT_TIMESTAMP WHERE id = ?]: the table afterwards. *)
Definition updateWhere (status : string) (verified : nat) (now id : string)
    (db : Table) : Table :=
  map (fun r => if String.eqb (Docket.id r) id
                then Docket.mk (Docket.id r) (Docket.customer_name r)
                       (Docket.delivery_address r) status verified now
                else r) db.

(** [result.changes]: the number of rows the update matched. *)
Definition changes (id : string) (db : Table) : nat :=
  length (filter (fun r => String.eqb (Docket.id r) id) db).

(** An HTTP response of the API, with the body of a 200. *)
Inductive Response (B : Type) :=
| Ok200 (body : B)
| NotFound404.
Arguments Ok200 {B} body.
Arguments NotFound404 {B}.

(** [app.get("/api/dockets/:id")] on [req.params.id]. *)
Definition getDocket (db : Table) (id : string) : Response Docket.t :=
  match selectById id db with
  | Some row => Ok200 row
  | None => NotFound404
  end.

(** [app.post("/api/dockets/:id/update")] on [req.params.id] and the
    [status] and [pod_verified] of the body the component sends; returns
    the table afterwards with the response. *)
Definition postUpdate (db : Table) (now id status : string) (pod_verified : bool)
  : Table * Response unit :=
  let db' := updateWhere status (if pod_verified then 1 else 0) now id db in
  if (0 <? changes id db)%nat then (db', Ok200 tt) else (db', NotFound404).

End Server.

(** ** Component and server together *)

(** What happens to one [fetch]: the request is answered, it does not
    reach the server, or it is served and the response is lost; the last
    two reject the promise. *)
Inductive Net := Up | Down | ReplyLost.

Definition fetchGet (net : Net) (db : Server.Table) (id : string) : GetReply :=
  match net with
  | Up =>
      match Server.getDocket db id with
      | Server.Ok200 row => GetOk row
      | Server.NotFound404 => GetNotOk
      end
  | Down | ReplyLost => GetThrows
  end.

Definition fetchPost (net : Net) (db : Server.Table) (now id status : string)
    (verified : bool) : Server.Table * PostReply :=
  match net with
  | Up =>
      let (db', res) := Server.postUpdate db now id status verified in
      (db', PostReplied (match res with Server.Ok200 _ => true | Server.NotFound404 => false end))
  | Down => (db, PostThrows)
  | ReplyLost => (fst (Server.postUpdate db now id status verified), PostThrows)
  end.

(** What surrounds one run of [handleSend] besides the server: the state of
    the network, the clock of the server, the identifiers drawn and the
    reply of the language model. *)
Record Wire := {
  net : Net;
  clock : string;
  fresh1 : string;
  fresh2 : string;
  gen : GenReply
}.

(** The environment in which [handleSend] of render [r] runs against the
    table [db]: the replies to the one request that render can send to the
    store, the lookup of the token in its input or the update of its
    docket. *)
Definition envFor (w : Wire) (db : Server.Table) (r : App) : Env :=
  {| id1 := fresh1 w;
     id2 := fresh2 w;
     getReply :=
       match docketMatch (trim (input r)) with
       | Some m => fetchGet (net w) db (toUpperCase m)
       | None => GetThrows
       end;
     postReply :=
       match currentDocket r with
       | Some d => snd (fetchPost (net w) db (clock w) (Docket.id d) "Delivered" true)
       | None => PostThrows
       end;
     genReply := gen w |}.

(** The table after the server has seen request [q]. *)
Definition deliver (w : Wire) (db : Server.Table) (q : Request) : Server.Table :=
  match q with
  | PostUpdate id status verified =>
      fst (fetchPost (net w) db (clock w) id status verified)
  | _ => db
  end.

Record System := {
  app : App;
  table : Server.Table
}.

(** The events of the component, with the store behind it. *)
Inductive Action :=
| ATyped (text : string)
| ASubmit (w : Wire)
| ASuggest (k : nat) (w : Wire)
| AConfirm (w : Wire)
| AFile (file : option FileRead) (i1 i2 : string)
| AAnswer (k : nat) (reply : GenReply)
| AReset.

Definition eventOf (y : System) (a : Action) : Event :=
  match a with
  | ATyped text => Typed text
  | ASubmit w => Submit (envFor w (table y) (app y))
  | ASuggest k w => Suggest k (envFor w (table y) (app y))
  | AConfirm w => ConfirmUpdate (envFor w (table y) (app y))
  | AFile file i1 i2 => FileChosen file i1 i2
  | AAnswer k reply => Answer k reply
  | AReset => Reset
  end.

Definition wireOf (a : Action) : option Wire :=
  match a with
  | ASubmit w | ASuggest _ w | AConfirm w => Some w
  | _ => None
  end.

(** The requests [s'] has sent beyond those of [s]. *)
Definition sentSince (s s' : App) : list Request :=
  skipn (length (requests s)) (requests s').

Definition sysStep (y : System) (a : Action) : System :=
  let s' := step (app y) (eventOf y a) in
  {| app := s';
     table :=
       match wireOf a with
       | Some w => fold_left (deliver w) (sentSince (app y) s') (table y)
       | None => table y
       end |}.

Definition sysRun (y : System) (acts : list Action) : System :=
  fold_left sysStep acts y.

(** The system after the server has started on table [db]. *)
Definition boot (db : Server.Table) : System := {| app := initial; table := db |}.

(** The active docket is a row of the table, by its identifier. *)
Definition docketKnown (y : System) : Prop :=
  forall d, currentDocket (app y) = Some d ->
            In (Docket.id d) (map Docket.id (table y)).

Definition online (a b : string) : Wire :=
  {| net := Up; clock := "2024-06-01 12:00:00"; fresh1 := a; fresh2 := b;
     gen := GenReturns (Some "Sure.") |}.

Definition seededTable : Server.Table :=
  Server.seed "2024-01-01 00:00:00" "2024-01-01 00:00:00" "2024-01-01 00:00:00" [].

(** The log holds a message of the user that carries image [img]. *)
Definition uploaded (s : App) (img : string) : Prop :=
  exists m, In m (messages s) /\ Message.role m = user /\ Message.image m = Some img.

(** The systems that arise from a start of the server on some table. *)
Definition sysReachable (y : System) : Prop :=
  exists db acts, y = sysRun (boot db) acts.

(** What an update never touches in a row. *)
Definition identity (r : Docket.t) : string * string * string :=
  (Docket.id r, Docket.customer_name r, Docket.delivery_address r).




(** Look up DKT-1001, upload a photo, and reset while the verdict is
    outstanding. *)
Definition resetWhileAnalysing : list Event := (toAnalysing ++ [Reset])%list.

(** ** Proof steps for handlers *)

Ltac fields :=
  cbn [fst snd messages input isTyping currentDocket pendingPodImage inflight
       requests d_role d_content d_image d_status Message.id].

(** Unfold a handler down to the state it returns. *)
Ltac act :=
  unfold exec, handleSend, handleFileUpload, analyzePOD_start, analyzePOD_resume,
    analyzePOD_null, fetchDocket, updateDocketStatus, updateMessageStatus,
    addMessage, plain, send, setMessages, setInput, setIsTyping,
    setCurrentDocket, setPendingPodImage, setInflight, modify, bind, ret;
  fields.

(** Case analysis on the innermost tests of the goal. *)
Ltac split_match :=
  repeat match goal with
         | |- context [match ?x with _ => _ end] =>
             lazymatch x with
             | context [match _ with _ => _ end] => fail
             | _ => destruct x eqn:?; fields
             end
         end.

(** * Properties *)

(** ** Strings *)

Section Strings.

Lemma isSpace_lowerChar (c : ascii) : isSpace (lowerChar c) = isSpace c.
Proof. destruct c as [[] [] [] [] [] [] [] []]; reflexivity. Qed.

Lemma isEmpty_toLowerCase (s : string) : isEmpty (toLowerCase s) = isEmpty s.
Proof. destruct s; reflexivity. Qed.

Lemma isEmpty_true (s : string) : isEmpty s = true -> s = "".
Proof. destruct s; [reflexivity | discriminate]. Qed.

Lemma toLowerCase_trimStart (s : string) :
  toLowerCase (trimStart s) = trimStart (toLowerCase s).
Proof.
  induction s as [|c s IH]; simpl; [reflexivity|].
  rewrite isSpace_lowerChar. destruct (isSpace c); [exact IH | reflexivity].
Qed.

Lemma toLowerCase_trimEnd (s : string) :
  toLowerCase (trimEnd s) = trimEnd (toLowerCase s).
Proof.
  induction s as [|c s IH]; simpl; [reflexivity|].
  rewrite isSpace_lowerChar, <- IH, isEmpty_toLowerCase.
  destruct (isSpace c && isEmpty (trimEnd s)); reflexivity.
Qed.

Lemma toLowerCase_trim (s : string) : toLowerCase (trim s) = trim (toLowerCase s).
Proof. unfold trim. now rewrite toLowerCase_trimEnd, toLowerCase_trimStart. Qed.

Lemma startsWith_space (n : string) (c : ascii) (s : string) :
  firstNonSpace n = true -> isSpace c = true -> startsWith n (String c s) = false.
Proof.
  destruct n as [|a n]; simpl; [discriminate|].
  intros Ha Hc. destruct (Ascii.eqb_spec a c) as [->|_]; [|reflexivity].
  rewrite Hc in Ha. discriminate.
Qed.

Lemma includes_trimStart (n s : string) :
  firstNonSpace n = true -> includes n (trimStart s) = includes n s.
Proof.
  intros Hn. induction s as [|c s IH]; [reflexivity|].
  cbn [trimStart]. destruct (isSpace c) eqn:Hc; [|reflexivity].
  rewrite IH. cbn [includes]. now rewrite (startsWith_space n c s Hn Hc).
Qed.

Lemma lastNonSpace_cons (a : ascii) (n : string) :
  lastNonSpace (String a n) = true ->
  (n = "" /\ isSpace a = false) \/ (lastNonSpace n = true).
Proof.
  destruct n as [|b n]; simpl.
  - intros H. left. split; [reflexivity|]. now destruct (isSpace a).
  - intros H. right. exact H.
Qed.

Lemma lastNonSpace_nonempty (n : string) : lastNonSpace n = true -> isEmpty n = false.
Proof. destruct n; [discriminate | reflexivity]. Qed.

Lemma startsWith_nil (n : string) : isEmpty n = false -> startsWith n "" = false.
Proof. destruct n; [discriminate | reflexivity]. Qed.

Lemma startsWith_trimEnd (n s : string) :
  lastNonSpace n = true -> startsWith n (trimEnd s) = startsWith n s.
Proof.
  revert n. induction s as [|c s IH]; intros n Hn; [reflexivity|].
  destruct n as [|a n]; [discriminate|].
  cbn [trimEnd].
  destruct (lastNonSpace_cons a n Hn) as [[-> Ha] | Hn'].
  - destruct (isSpace c && isEmpty (trimEnd s)) eqn:E; cbn; [|reflexivity].
    apply andb_true_iff in E as [Hc _].
    destruct (Ascii.eqb_spec a c) as [->|_]; [congruence | reflexivity].
  - specialize (IH n Hn').
    destruct (isSpace c && isEmpty (trimEnd s)) eqn:E; cbn [startsWith].
    + apply andb_true_iff in E as [_ He]. apply isEmpty_true in He.
      rewrite He in IH. rewrite <- IH.
      rewrite (startsWith_nil n (lastNonSpace_nonempty n Hn')).
      now rewrite andb_false_r.
    + now rewrite IH.
Qed.

Lemma includes_nil (n : string) : isEmpty n = false -> includes n "" = false.
Proof. destruct n; [discriminate | reflexivity]. Qed.

Lemma includes_trimEnd (n s : string) :
  lastNonSpace n = true -> includes n (trimEnd s) = includes n s.
Proof.
  intros Hn. induction s as [|c s IH]; [reflexivity|].
  cbn [includes]. rewrite <- IH, <- (startsWith_trimEnd n (String c s) Hn).
  cbn [trimEnd].
  destruct (isSpace c && isEmpty (trimEnd s)) eqn:E; [|reflexivity].
  apply andb_true_iff in E as [_ He]. apply isEmpty_true in He. rewrite He.
  rewrite (includes_nil n (lastNonSpace_nonempty n Hn)).
  now destruct n.
Qed.

Lemma includes_trim (n s : string) :
  firstNonSpace n = true -> lastNonSpace n = true ->
  includes n (trim s) = includes n s.
Proof.
  intros H1 H2. unfold trim. now rewrite includes_trimEnd, includes_trimStart.
Qed.

Lemma includes_lower_trim (n s : string) :
  firstNonSpace n = true -> lastNonSpace n = true ->
  includes n (toLowerCase (trim s)) = includes n (toLowerCase s).
Proof. intros H1 H2. now rewrite toLowerCase_trim, includes_trim. Qed.

Lemma includes_nonempty (n s : string) :
  isEmpty n = false -> includes n s = true -> isEmpty s = false.
Proof.
  intros Hn H. destruct s; [|reflexivity].
  rewrite (includes_nil n Hn) in H. discriminate.
Qed.

Lemma startsWith_app (n s : string) : startsWith n (n ++ s) = true.
Proof.
  induction n as [|a n IH]; simpl; [reflexivity|].
  now rewrite Ascii.eqb_refl, IH.
Qed.

Lemma includes_startsWith (n s : string) :
  startsWith n s = true -> includes n s = true.
Proof. intros H. destruct s; cbn [includes]; now rewrite H. Qed.

Lemma includes_app (n a b : string) : includes n (a ++ n ++ b) = true.
Proof.
  induction a as [|c a IH].
  - cbn [append]. apply includes_startsWith, startsWith_app.
  - cbn [append includes]. rewrite IH. apply orb_true_r.
Qed.

Lemma append_assoc (a b c : string) : (a ++ b) ++ c = a ++ b ++ c.
Proof. induction a as [|x a IH]; cbn; [reflexivity | now rewrite IH]. Qed.

Lemma includes_mid (a x b n c : string) : includes n (a ++ x ++ (b ++ n ++ c)) = true.
Proof.
  rewrite <- (append_assoc x b), <- (append_assoc a (x ++ b)).
  apply includes_app.
Qed.

End Strings.

(** ** Handlers *)

Lemma trim_allSpace (s : string) : allSpace s = true -> trim s = "".
Proof.
  unfold trim. induction s as [|c s IH]; cbn; [reflexivity|].
  intros H. apply andb_true_iff in H as [-> H]. exact (IH H).
Qed.

Lemma classify_commit (u : string) :
  classify u = RequestCommit <->
  includes "update" (toLowerCase u) || includes "please update" (toLowerCase u) = true.
Proof.
  unfold classify.
  destruct (includes "update" (toLowerCase u) || includes "please update" (toLowerCase u)).
  - tauto.
  - destruct (docketMatch u); split; discriminate.
Qed.

Lemma classify_lookup (u id : string) :
  classify u = DocketLookup id <->
  includes "update" (toLowerCase u) || includes "please update" (toLowerCase u) = false
  /\ exists m, docketMatch u = Some m /\ id = toUpperCase m.
Proof.
  unfold classify.
  destruct (includes "update" (toLowerCase u) || includes "please update" (toLowerCase u)).
  - split; [discriminate | intros [? _]; discriminate].
  - destruct (docketMatch u) as [m|]; split.
    + intros [= <-]. eauto.
    + intros [_ (m' & [= <-] & ->)]. reflexivity.
    + discriminate.
    + intros [_ (m' & ? & _)]. discriminate.
Qed.

Lemma classify_nonempty (u : string) : classify u <> Freeform -> isEmpty u = false.
Proof. destruct u; [intros H; now contradiction H | reflexivity]. Qed.

(** What [handleSend] leaves alone, whatever the render it was created in. *)
Lemma handleSend_frame (r : App) (env : Env) (s : App) :
  let s' := exec (handleSend r env) s in
  inflight s' = inflight s
  /\ (currentDocket s' = currentDocket s \/ exists d, currentDocket s' = Some d)
  /\ (pendingPodImage s' = pendingPodImage s \/ pendingPodImage s' = None).
Proof.
  act. split_match; repeat split; eauto.
Qed.

Lemma handleFileUpload_frame (r : App) (file : option FileRead) (i1 i2 : string) (s : App) :
  let s' := exec (handleFileUpload r file i1 i2) s in
  currentDocket s' = currentDocket s
  /\ pendingPodImage s' = pendingPodImage s
  /\ (currentDocket r = None -> inflight s' = inflight s).
Proof.
  act. split_match; repeat split; eauto; discriminate.
Qed.

Lemma analyzePOD_resume_docket (j : Job) (reply : GenReply) (s : App) :
  currentDocket (exec (analyzePOD_resume j reply) s) = currentDocket s.
Proof. act. split_match; reflexivity. Qed.

(** The three branches of [handleSend] on a message that is a commit
    request, as the state they produce. *)
Lemma handleSend_commit (s : App) (env : Env) :
  classify (trim (input s)) = RequestCommit ->
  exec (handleSend s env) s =
  let userMsg := trim (input s) in
  let said := [Message.mk (id1 env) user userMsg None None] in
  let answer c := [Message.mk (id2 env) assistant c None None] in
  match currentDocket s with
  | Some d =>
      if truthy (pendingPodImage s)
      then
        let ok := match postReply env with PostReplied ok => ok | PostThrows => false end in
        {| messages :=
             ((messages s ++ said)
              ++ answer (if ok then updatedText d
                         else "Failed to update the docket. Please try again."))%list;
           input := ""; isTyping := false; currentDocket := currentDocket s;
           pendingPodImage := if ok then None else pendingPodImage s;
           inflight := inflight s;
           requests := (requests s ++ [PostUpdate (Docket.id d) "Delivered" true])%list |}
      else
        {| messages :=
             ((messages s ++ said)
              ++ answer "I haven't verified a POD for this docket yet. Please upload the POD image first.")%list;
           input := ""; isTyping := isTyping s; currentDocket := currentDocket s;
           pendingPodImage := pendingPodImage s; inflight := inflight s;
           requests := requests s |}
  | None =>
      {| messages :=
           ((messages s ++ said) ++ answer "Please provide a docket number first.")%list;
         input := ""; isTyping := isTyping s; currentDocket := currentDocket s;
         pendingPodImage := pendingPodImage s; inflight := inflight s;
         requests := requests s |}
  end.
Proof.
  intros Hc.
  assert (Hne : isEmpty (trim (input s)) = false)
    by (apply classify_nonempty; congruence).
  apply classify_commit in Hc.
  act. rewrite Hne, Hc. cbv zeta.
  destruct (currentDocket s) as [d|]; [|reflexivity].
  destruct (truthy (pendingPodImage s)); [|reflexivity].
  destruct (postReply env) as [[]|]; reflexivity.
Qed.

(** The two outcomes of [handleSend] on a message that names a docket. *)
Lemma handleSend_lookup (s : App) (env : Env) (docketId : string) :
  classify (trim (input s)) = DocketLookup docketId ->
  exec (handleSend s env) s =
  let userMsg := trim (input s) in
  let said := [Message.mk (id1 env) user userMsg None None] in
  let answer c := [Message.mk (id2 env) assistant c None None] in
  let found := match getReply env with GetOk data => Some data | _ => None end in
  {| messages :=
       ((messages s ++ said)
        ++ answer (match found with
                   | Some d => foundText d
                   | None => notFoundText docketId
                   end))%list;
     input := ""; isTyping := false;
     currentDocket := match found with Some d => Some d | None => currentDocket s end;
     pendingPodImage := pendingPodImage s; inflight := inflight s;
     requests := (requests s ++ [GetDocket docketId])%list |}.
Proof.
  intros Hc.
  assert (Hne : isEmpty (trim (input s)) = false)
    by (apply classify_nonempty; congruence).
  apply classify_lookup in Hc as (Hu & m & Hm & ->).
  act. rewrite Hne, Hu, Hm. cbv zeta.
  destruct (getReply env); reflexivity.
Qed.

(** ** Reachable states *)

Lemma run_snoc (s : App) (es : list Event) (e : Event) :
  run s (es ++ [e]) = step (run s es) e.
Proof. unfold run. now rewrite fold_left_app. Qed.

Lemma reachable_initial : reachable initial.
Proof. now exists []. Qed.

Lemma reachable_run (es : list Event) : reachable (run initial es).
Proof. now exists es. Qed.

Lemma reachable_step (s : App) (e : Event) : reachable s -> reachable (step s e).
Proof. intros [es ->]. exists (es ++ [e])%list. now rewrite run_snoc. Qed.

Lemma reachable_ind (P : App -> Prop) :
  P initial ->
  (forall s e, reachable s -> P s -> P (step s e)) ->
  forall s, reachable s -> P s.
Proof.
  intros H0 Hstep s [es ->].
  induction es as [|e es IH] using rev_ind; [exact H0|].
  rewrite run_snoc. apply Hstep; [now exists es | exact IH].
Qed.

Lemma In_removeNth {A} (k : nat) (l : list A) (x : A) :
  In x (removeNth k l) -> In x l.
Proof.
  revert k. induction l as [|a l IH]; intros [|k]; cbn; auto.
  intros [->|H]; eauto.
Qed.

(** Messages are only ever appended or rewritten in place: an identifier
    present in the log stays. *)
Lemma step_keeps_ids (s : App) (e : Event) (i : string) :
  (exists m, In m (messages s) /\ Message.id m = i) ->
  exists m, In m (messages (step s e)) /\ Message.id m = i.
Proof.
  intros (m & Hin & Hid).
  assert (Happ : forall l, exists m, In m (messages s ++ l)%list /\ Message.id m = i)
    by (intros l; exists m; split; [apply in_or_app; now left | exact Hid]).
  assert (Hmap : forall (f : Message.t -> Message.t) l,
             (forall x, Message.id (f x) = Message.id x) ->
             (exists m, In m l /\ Message.id m = i) ->
             exists m, In m (map f l) /\ Message.id m = i).
  { intros f l Hf (x & Hx & Hxi). exists (f x). split; [now apply in_map|].
    now rewrite Hf. }
  assert (Hrw : forall t st c x,
             Message.id (if String.eqb (Message.id x) t then withStatus st c x else x)
             = Message.id x)
    by (intros t st c x; now destruct (String.eqb (Message.id x) t)).
  assert (Hs : exists m, In m (messages s) /\ Message.id m = i) by eauto.
  destruct e; cbn [step]; act; split_match; fields; rewrite <- ?app_assoc; eauto.
Qed.

Lemma step_inflight (s : App) (e : Event) (j : Job) :
  In j (inflight (step s e)) ->
  In j (inflight s)
  \/ exists rest i1 i2 d,
       e = FileChosen (Some (ReadOk rest)) i1 i2
       /\ currentDocket s = Some d
       /\ j = {| msgId := i2; base64Image := dataURL rest; docket := d |}.
Proof.
  destruct e; cbn [step].
  - act. auto.
  - rewrite (proj1 (handleSend_frame s env s)). auto.
  - destruct (currentDocket s); [auto|].
    destruct (nth_error suggestions k); [|auto].
    unfold exec, bind.
    destruct (setInput s0 s) as [u s1] eqn:E.
    assert (Hs1 : inflight s1 = inflight s)
      by (revert E; act; now intros [= <- <-]).
    rewrite <- Hs1. intros H. left.
    now rewrite <- (proj1 (handleSend_frame s env s1)).
  - destruct (isSome (currentDocket s) && truthy (pendingPodImage s)); [|auto].
    unfold exec, bind.
    destruct (setInput "Please update" s) as [u s1] eqn:E.
    assert (Hs1 : inflight s1 = inflight s)
      by (revert E; act; now intros [= <- <-]).
    rewrite <- Hs1. intros H. left.
    now rewrite <- (proj1 (handleSend_frame s env s1)).
  - act. destruct file as [[rest|]|]; destruct (currentDocket s) as [d|] eqn:Hd;
      fields; auto.
    intros H. apply in_app_or in H as [H|[<-|[]]]; [auto|].
    right. now exists rest, i1, i2, d.
  - destruct (nth_error (inflight s) k); [|auto].
    act. split_match; fields; intros H; left; eapply In_removeNth; eauto.
  - destruct (isSome (currentDocket s)); act; auto.
Qed.

Lemma reachable_jobsTracked (s : App) : reachable s -> jobsTracked s.
Proof.
  intros H. induction H as [|s e _ IH] using reachable_ind.
  - intros j [].
  - intros j Hj. apply step_inflight in Hj as [Hj | (rest & i1 & i2 & d & -> & Hd & ->)].
    + destruct (IH j Hj) as [Hne Hm]. split; [exact Hne|].
      now apply step_keeps_ids.
    + split; [reflexivity|]. cbn [step msgId]. act. rewrite Hd. fields.
      eexists. split; [apply in_or_app; right; now left | reflexivity].
Qed.

Lemma step_scoped (s : App) (e : Event) :
  isReset e = false -> scoped s -> scoped (step s e).
Proof.
  intros He Hs. unfold scoped in *.
  assert (Hsend : forall env s1,
             currentDocket s1 = currentDocket s ->
             pendingPodImage s1 = pendingPodImage s ->
             inflight s1 = inflight s ->
             currentDocket (exec (handleSend s env) s1) = None ->
             pendingPodImage (exec (handleSend s env) s1) = None
             /\ inflight (exec (handleSend s env) s1) = []).
  { intros env s1 E1 E2 E3 Hn.
    destruct (handleSend_frame s env s1) as (Hi & [Hd | [d Hd]] & Hp);
      [|congruence].
    rewrite Hd, E1 in Hn. destruct (Hs Hn) as [Hp0 Hi0].
    rewrite Hi, E3. split; [|exact Hi0].
    destruct Hp as [-> | ->]; congruence. }
  destruct e; cbn [step]; try discriminate.
  - act. exact Hs.
  - now apply Hsend.
  - destruct (currentDocket s) eqn:Hd; [intros Hn; cbv iota in Hn; congruence|].
    destruct (nth_error suggestions k); [|intros _; exact (Hs eq_refl)].
    change (exec (setInput s0;; handleSend s env) s)
      with (exec (handleSend s env) (exec (setInput s0) s)).
    now apply Hsend.
  - destruct (isSome (currentDocket s) && truthy (pendingPodImage s)); [|exact Hs].
    change (exec (setInput "Please update";; handleSend s env) s)
      with (exec (handleSend s env) (exec (setInput "Please update") s)).
    now apply Hsend.
  - destruct (handleFileUpload_frame s file i1 i2 s) as (Hd & Hp & Hi).
    rewrite Hd, Hp. intros Hn. rewrite (Hi Hn). exact (Hs Hn).
  - destruct (nth_error (inflight s) k) as [j|] eqn:Hk; [|exact Hs].
    change (exec (setInflight (removeNth k);; analyzePOD_resume j reply) s)
      with (exec (analyzePOD_resume j reply) (exec (setInflight (removeNth k)) s)).
    rewrite analyzePOD_resume_docket. change (currentDocket (exec _ s)) with (currentDocket s).
    intros Hn. destruct (Hs Hn) as [_ Hi]. rewrite Hi in Hk. now destruct k.
Qed.

Lemma run_scoped (es : list Event) (s : App) :
  forallb (fun e => negb (isReset e)) es = true -> scoped s -> scoped (run s es).
Proof.
  revert s. induction es as [|e es IH]; intros s Hes Hs; [exact Hs|].
  cbn in Hes. apply andb_true_iff in Hes as [He Hes].
  cbn [run fold_left]. apply IH; [exact Hes|].
  apply step_scoped; [now destruct (isReset e) | exact Hs].
Qed.

(** An answer of the vision model, as the state it produces. *)
Lemma step_answer (s : App) (k : nat) (j : Job) (reply : GenReply) :
  nth_error (inflight s) k = Some j ->
  step s (Answer k reply) =
  let verdict :=
    match reply with
    | GenReturns text => (success, orElse text notAnalyzed)
    | GenThrows => (error, apology)
    end in
  let accepted :=
    match reply with
    | GenReturns text => includes "pod is good" (toLowerCase (orElse text notAnalyzed))
    | GenThrows => false
    end in
  {| messages :=
       map (fun m => if String.eqb (Message.id m) (msgId j)
                     then withStatus (Some (fst verdict)) (Some (snd verdict)) m
                     else m) (messages s);
     input := input s; isTyping := false; currentDocket := currentDocket s;
     pendingPodImage := if accepted then Some (base64Image j) else pendingPodImage s;
     inflight := removeNth k (inflight s);
     requests := requests s |}.
Proof.
  intros Hk. cbn [step]. rewrite Hk. act.
  destruct reply as [text|]; [|reflexivity].
  cbv zeta. destruct (includes "pod is good" (toLowerCase (orElse text notAnalyzed)));
    reflexivity.
Qed.

Lemma rewritten_all (l : list Message.t) (i : string) (st : Status) (c : string) (m : Message.t) :
  In m (map (fun m => if String.eqb (Message.id m) i
                      then withStatus (Some st) (Some c) m else m) l) ->
  Message.id m = i ->
  Message.status m = Some st /\ Message.content m = c.
Proof.
  intros Hin Hid. apply in_map_iff in Hin as (x & <- & _).
  destruct (String.eqb_spec (Message.id x) i) as [_|Hne]; [now split|].
  contradiction.
Qed.

Lemma rewritten_some (l : list Message.t) (i : string) (st : option Status) (c : option string) :
  (exists m, In m l /\ Message.id m = i) ->
  exists m, In m (map (fun m => if String.eqb (Message.id m) i
                                then withStatus st c m else m) l)
            /\ Message.id m = i.
Proof.
  intros (x & Hx & Hid). eexists. split; [apply in_map, Hx|].
  now destruct (String.eqb (Message.id x) i).
Qed.

(** ** The workflow *)

(** C10.  A submission whose input is empty or made of white space only
    does nothing: the state, with its message log and the record of the
    requests sent, is the one before; so are the active docket and the
    pending evidence. *)
Theorem blank_submit_noop (s : App) (env : Env) :
  allSpace (input s) = true ->
  let s' := step s (Submit env) in
  s' = s
  /\ messages s' = messages s
  /\ requests s' = requests s
  /\ currentDocket s' = currentDocket s
  /\ pendingPodImage s' = pendingPodImage s.
Proof.
  intros H. cbn [step]. act. rewrite (trim_allSpace _ H). cbn.
  repeat split.
Qed.

Lemma blank_submit_noop_witness :
  step (step initial (Typed "   ")) (Submit (serving "u1" "a1" dkt1001))
  = step initial (Typed "   ").
Proof.
  exact (proj1 (blank_submit_noop (step initial (Typed "   "))
                  (serving "u1" "a1" dkt1001) eq_refl)).
Defined.

(** C4.  When the text holds an "update" cue and a token of the form
    DKT-digits, it is classified as a commit request, never as a lookup,
    and [handleSend] runs its commit branch: after the user's message it
    adds the reply of that branch, it sends the update of the active docket
    when a docket is active and evidence is pending and nothing otherwise,
    it clears the evidence exactly when that update is accepted, and it
    neither queries the store for a docket nor changes the active docket:
    the commit branch is tested first. *)
Theorem update_precedes_lookup (s : App) (env : Env) :
  includes "update" (toLowerCase (input s)) = true ->
  isSome (docketMatch (input s)) = true ->
  let s' := step s (Submit env) in
  let userMsg := trim (input s) in
  let ok := match postReply env with PostReplied ok => ok | PostThrows => false end in
  classify (input s) = RequestCommit
  /\ classify userMsg = RequestCommit
  /\ (forall id, classify userMsg <> DocketLookup id)
  /\ messages s' =
     (messages s
      ++ [Message.mk (id1 env) user userMsg None None;
          Message.mk (id2 env) assistant
            (match currentDocket s with
             | None => "Please provide a docket number first."
             | Some d =>
                 if truthy (pendingPodImage s)
                 then if ok then updatedText d
                      else "Failed to update the docket. Please try again."
                 else "I haven't verified a POD for this docket yet. Please upload the POD image first."
             end) None None])%list
  /\ requests s' =
     (requests s
      ++ match currentDocket s with
         | Some d =>
             if truthy (pendingPodImage s)
             then [PostUpdate (Docket.id d) "Delivered" true]
             else []
         | None => []
         end)%list
  /\ pendingPodImage s' =
     (if isSome (currentDocket s) && truthy (pendingPodImage s) && ok
      then None else pendingPodImage s)
  /\ isTyping s' =
     (if isSome (currentDocket s) && truthy (pendingPodImage s)
      then false else isTyping s)
  /\ input s' = ""
  /\ inflight s' = inflight s
  /\ currentDocket s' = currentDocket s
  /\ exists sent, requests s' = (requests s ++ sent)%list
                  /\ forall id, ~ In (GetDocket id) sent.
Proof.
  intros Hu _.
  assert (Hc : classify (trim (input s)) = RequestCommit).
  { apply classify_commit.
    rewrite (includes_lower_trim "update") by reflexivity. now rewrite Hu. }
  cbv zeta.
  split; [apply classify_commit; now rewrite Hu|].
  split; [exact Hc|].
  split; [intros id; rewrite Hc; discriminate|].
  cbn [step]. rewrite (handleSend_commit s env Hc). cbv zeta.
  destruct (currentDocket s) as [d|];
    [destruct (truthy (pendingPodImage s));
       [destruct (postReply env) as [[]|]|]|];
    fields; cbn [isSome andb]; rewrite <- app_assoc, ?app_nil_r;
    repeat (split; [reflexivity|]).
  1-3: eexists; split; [reflexivity|]; intros id [H|[]]; discriminate.
  1-2: exists []; split; [now rewrite app_nil_r | intros id []].
Qed.

Lemma update_precedes_lookup_witness :
  requests (step (step atEvidence (Typed "please UPDATE dkt-1002"))
                 (Submit (serving "u3" "a3" dkt1002)))
  = (requests (step atEvidence (Typed "please UPDATE dkt-1002"))
     ++ [PostUpdate "DKT-1001" "Delivered" true])%list.
Proof.
  destruct (update_precedes_lookup
              (step atEvidence (Typed "please UPDATE dkt-1002"))
              (serving "u3" "a3" dkt1002) eq_refl eq_refl)
    as (_ & _ & _ & _ & H & _).
  exact H.
Defined.

(** C3.  With docket [d] active and evidence pending, a commit request
    whose update the store accepts sends the update (id of [d], Delivered,
    verified), answers with the success message, which names the id of [d],
    clears the pending evidence and keeps [d] active: the session is in
    DocketActive. *)
Theorem commit_success (s : App) (env : Env) (d : Docket.t) :
  currentDocket s = Some d ->
  truthy (pendingPodImage s) = true ->
  classify (trim (input s)) = RequestCommit ->
  postReply env = PostReplied true ->
  let s' := step s (Submit env) in
  requests s' = (requests s ++ [PostUpdate (Docket.id d) "Delivered" true])%list
  /\ messages s' =
     (messages s ++ [Message.mk (id1 env) user (trim (input s)) None None;
                     Message.mk (id2 env) assistant (updatedText d) None None])%list
  /\ includes (Docket.id d) (updatedText d) = true
  /\ pendingPodImage s' = None
  /\ currentDocket s' = Some d
  /\ phase s' = DocketActive.
Proof.
  intros Hd Hp Hc Hr. cbn [step]. rewrite (handleSend_commit s env Hc). cbv zeta.
  rewrite Hd, Hp, Hr. unfold phase. fields. rewrite <- app_assoc.
  repeat split. apply includes_app.
Qed.

Lemma commit_success_witness :
  phase (step (step atEvidence (Typed "please update"))
              (Submit (serving "u3" "a3" dkt1001)))
  = DocketActive.
Proof.
  destruct (commit_success
              (step atEvidence (Typed "please update"))
              (serving "u3" "a3" dkt1001) dkt1001
              eq_refl eq_refl eq_refl eq_refl) as (_ & _ & _ & _ & _ & H).
  exact H.
Defined.

(** C7.  In EvidencePending, a commit request whose update fails, by a
    response that is not a success or by a transport error, answers with
    the retry message and leaves the active docket and the pending
    evidence as they were: the session stays in EvidencePending. *)
Theorem commit_failure (s : App) (env : Env) (d : Docket.t) :
  currentDocket s = Some d ->
  truthy (pendingPodImage s) = true ->
  classify (trim (input s)) = RequestCommit ->
  postReply env = PostReplied false \/ postReply env = PostThrows ->
  let s' := step s (Submit env) in
  messages s' =
     (messages s ++ [Message.mk (id1 env) user (trim (input s)) None None;
                     Message.mk (id2 env) assistant
                       "Failed to update the docket. Please try again." None None])%list
  /\ currentDocket s' = currentDocket s
  /\ pendingPodImage s' = pendingPodImage s
  /\ phase s' = EvidencePending.
Proof.
  intros Hd Hp Hc Hr. cbn [step]. rewrite (handleSend_commit s env Hc). cbv zeta.
  rewrite Hd, Hp. unfold phase.
  destruct Hr as [-> | ->]; fields; rewrite <- app_assoc, ?Hd, ?Hp; repeat split.
Qed.

Lemma commit_failure_witness :
  phase (step (step atEvidence (Typed "Update it")) (Submit (offline "u3" "a3")))
  = EvidencePending.
Proof.
  destruct (commit_failure
              (step atEvidence (Typed "Update it"))
              (offline "u3" "a3") dkt1001
              eq_refl eq_refl eq_refl (or_intror eq_refl)) as (_ & _ & _ & H).
  exact H.
Defined.

(** C8.  A lookup that brings back no docket, because the store answers
    that there is none or because the call fails, answers with the
    not-found message, which lists the three seeded identifiers, and leaves
    the active docket and the pending evidence as they were. *)
Theorem lookup_not_found (s : App) (env : Env) (id : string) :
  classify (trim (input s)) = DocketLookup id ->
  getReply env = GetNotOk \/ getReply env = GetThrows ->
  let s' := step s (Submit env) in
  messages s' =
     (messages s ++ [Message.mk (id1 env) user (trim (input s)) None None;
                     Message.mk (id2 env) assistant (notFoundText id) None None])%list
  /\ (forall k, In k suggestions -> includes k (notFoundText id) = true)
  /\ requests s' = (requests s ++ [GetDocket id])%list
  /\ currentDocket s' = currentDocket s
  /\ pendingPodImage s' = pendingPodImage s.
Proof.
  intros Hc Hr. cbn [step]. rewrite (handleSend_lookup s env id Hc). cbv zeta.
  assert (Hk : forall k, In k suggestions -> includes k (notFoundText id) = true).
  { unfold notFoundText.
    intros k [<-|[<-|[<-|[]]]].
    - exact (includes_mid "Sorry, I couldn't find docket **" id "**. Try "
               "DKT-1001" ", DKT-1002, or DKT-1003.").
    - exact (includes_mid "Sorry, I couldn't find docket **" id "**. Try DKT-1001, "
               "DKT-1002" ", or DKT-1003.").
    - exact (includes_mid "Sorry, I couldn't find docket **" id
               "**. Try DKT-1001, DKT-1002, or " "DKT-1003" "."). }
  destruct Hr as [-> | ->]; fields; rewrite <- app_assoc; repeat split; exact Hk.
Qed.

Lemma lookup_not_found_witness :
  currentDocket (step (step atEvidence (Typed "dkt-9999")) (Submit (missing "u3" "a3")))
  = currentDocket (step atEvidence (Typed "dkt-9999")).
Proof.
  destruct (lookup_not_found
              (step atEvidence (Typed "dkt-9999")) (missing "u3" "a3") "DKT-9999"
              eq_refl (or_introl eq_refl)) as (_ & _ & _ & H & _).
  exact H.
Defined.

(** C2, as the claim states it, fails: with evidence pending for DKT-1001,
    a lookup of DKT-1002 that succeeds changes the active docket and the
    evidence is still pending. *)
Lemma lookup_clears_evidence_fails :
  pendingPodImage atEvidence = Some photo
  /\ currentDocket atEvidence = Some dkt1001
  /\ classify (trim (input (step atEvidence (Typed "DKT-1002")))) = DocketLookup "DKT-1002"
  /\ currentDocket (step (step atEvidence (Typed "DKT-1002"))
                         (Submit (serving "u3" "a3" dkt1002))) = Some dkt1002
  /\ pendingPodImage (step (step atEvidence (Typed "DKT-1002"))
                           (Submit (serving "u3" "a3" dkt1002))) = Some photo.
Proof. repeat split. Qed.

(** C2 (amended).  A lookup that succeeds queries the store for the
    identifier, makes the docket it returns the active one and leaves the
    pending evidence as it was. *)
Theorem lookup_keeps_evidence (s : App) (env : Env) (id : string) (data : Docket.t) :
  classify (trim (input s)) = DocketLookup id ->
  getReply env = GetOk data ->
  let s' := step s (Submit env) in
  requests s' = (requests s ++ [GetDocket id])%list
  /\ currentDocket s' = Some data
  /\ pendingPodImage s' = pendingPodImage s.
Proof.
  intros Hc Hr. cbn [step]. rewrite (handleSend_lookup s env id Hc). cbv zeta.
  rewrite Hr. fields. repeat split.
Qed.

Lemma lookup_keeps_evidence_witness :
  pendingPodImage (step (step atEvidence (Typed "DKT-1002"))
                        (Submit (serving "u3" "a3" dkt1002)))
  = pendingPodImage (step atEvidence (Typed "DKT-1002")).
Proof.
  destruct (lookup_keeps_evidence
              (step atEvidence (Typed "DKT-1002")) (serving "u3" "a3" dkt1002)
              "DKT-1002" dkt1002 eq_refl eq_refl) as (_ & _ & H).
  exact H.
Defined.






(** C5, as the claim states it, fails: a reset while the verdict is
    outstanding leaves the job of DKT-1001 in flight; the verdict then
    holds the marker and sets the evidence, but no docket is active, so the
    session is not in EvidencePending. *)
Lemma verdict_after_reset_not_pending :
  nth_error (inflight (run initial resetWhileAnalysing)) 0
  = Some {| msgId := "a2"; base64Image := photo; docket := dkt1001 |}
  /\ includes "pod is good" (toLowerCase goodVerdict) = true
  /\ currentDocket (step (run initial resetWhileAnalysing)
                         (Answer 0 (GenReturns (Some goodVerdict)))) = None
  /\ pendingPodImage (step (run initial resetWhileAnalysing)
                           (Answer 0 (GenReturns (Some goodVerdict)))) = Some photo
  /\ phase (step (run initial resetWhileAnalysing)
                 (Answer 0 (GenReturns (Some goodVerdict)))) = EvidenceOnly.
Proof. repeat split. Qed.

(** C5 (amended).  When the vision model answers a suspended analysis with
    a non-empty text [t], every message that bears the identifier of its
    loading message, and there is one, gets status success and content [t];
    the pending evidence becomes the submitted image when the lower-cased
    [t] contains "pod is good" and is left as it was otherwise, so that
    from no evidence it is set exactly when the marker is there; the active
    docket is left as it was: with the marker there the session is in
    EvidencePending when a docket is active as the verdict arrives, and
    holds the evidence without a docket when none is. *)
Theorem verdict_gates_evidence (s : App) (k : nat) (j : Job) (t : string) :
  reachable s ->
  nth_error (inflight s) k = Some j ->
  isEmpty t = false ->
  let s' := step s (Answer k (GenReturns (Some t))) in
  let marker := includes "pod is good" (toLowerCase t) in
  (forall m, In m (messages s') -> Message.id m = msgId j ->
             Message.status m = Some success /\ Message.content m = t)
  /\ (exists m, In m (messages s') /\ Message.id m = msgId j)
  /\ (marker = true -> pendingPodImage s' = Some (base64Image j))
  /\ (marker = false -> pendingPodImage s' = pendingPodImage s)
  /\ (pendingPodImage s = None ->
      (pendingPodImage s' = Some (base64Image j) <-> marker = true))
  /\ currentDocket s' = currentDocket s
  /\ (forall d, currentDocket s = Some d -> marker = true -> phase s' = EvidencePending)
  /\ (currentDocket s = None -> marker = true -> phase s' = EvidenceOnly)
  /\ (marker = false -> phase s' = phase s).
Proof.
  intros Hr Hk Ht.
  destruct (reachable_jobsTracked s Hr j (nth_error_In _ _ Hk)) as [Himg Hmsg].
  rewrite (step_answer s k j _ Hk). cbv zeta.
  assert (Ho : orElse (Some t) notAnalyzed = t) by (destruct t; [discriminate | reflexivity]).
  rewrite Ho. unfold phase. fields.
  split; [intros m; apply rewritten_all|].
  split; [now apply rewritten_some|].
  destruct (includes "pod is good" (toLowerCase t)).
  - repeat split; try discriminate; try reflexivity.
    + intros d -> _. unfold truthy. now rewrite Himg.
    + intros -> _. unfold truthy. now rewrite Himg.
  - repeat split; try discriminate; try reflexivity; intros; congruence.
Qed.

Lemma verdict_gates_evidence_witness :
  phase (step atAnalysing (Answer 0 (GenReturns (Some goodVerdict)))) = EvidencePending.
Proof.
  destruct (verdict_gates_evidence atAnalysing 0
              {| msgId := "a2"; base64Image := photo; docket := dkt1001 |}
              goodVerdict
              (reachable_run toAnalysing) eq_refl eq_refl)
    as (_ & _ & _ & _ & _ & _ & H & _).
  exact (H dkt1001 eq_refl eq_refl).
Defined.

(** C6, as the claim states it, fails: when the vision model returns
    without text, the loading message is resolved to status success with
    the text of [notAnalyzed], not to status error. *)
Lemma missing_text_resolves_success :
  nth_error (messages atAnalysing) 4
  = Some (Message.mk "a2" assistant "Analyzing POD image against docket details..."
            None (Some loading))
  /\ nth_error (messages (step atAnalysing (Answer 0 (GenReturns None)))) 4
     = Some (Message.mk "a2" assistant "I couldn't analyze the image properly."
               None (Some success))
  /\ nth_error (messages (step atAnalysing (Answer 0 (GenReturns (Some ""))))) 4
     = Some (Message.mk "a2" assistant "I couldn't analyze the image properly."
               None (Some success)).
Proof. repeat split. Qed.

(** C6 (amended).  When the call of the vision model fails, every message
    that bears the identifier of the loading message, and there is one,
    gets status error and the fixed apology; when the call returns no text
    or an empty one, it gets status success and the fixed text of
    [notAnalyzed]; in both cases the step yields a state in which the
    active docket and the pending evidence are as they were. *)
Theorem unusable_verdict_resolves (s : App) (k : nat) (j : Job) (reply : GenReply) :
  reachable s ->
  nth_error (inflight s) k = Some j ->
  reply = GenThrows \/ reply = GenReturns None \/ reply = GenReturns (Some "") ->
  let s' := step s (Answer k reply) in
  (forall m, In m (messages s') -> Message.id m = msgId j ->
             match reply with
             | GenThrows =>
                 Message.status m = Some error /\ Message.content m = apology
             | GenReturns _ =>
                 Message.status m = Some success /\ Message.content m = notAnalyzed
             end)
  /\ (exists m, In m (messages s') /\ Message.id m = msgId j)
  /\ currentDocket s' = currentDocket s
  /\ pendingPodImage s' = pendingPodImage s.
Proof.
  intros Hr Hk Hreply.
  destruct (reachable_jobsTracked s Hr j (nth_error_In _ _ Hk)) as [_ Hmsg].
  rewrite (step_answer s k j _ Hk). cbv zeta.
  destruct Hreply as [-> | [-> | ->]]; fields;
    (split; [intros m; apply rewritten_all|]);
    (split; [now apply rewritten_some|]); split; reflexivity.
Qed.

Lemma unusable_verdict_resolves_witness :
  pendingPodImage (step atAnalysing (Answer 0 GenThrows)) = pendingPodImage atAnalysing.
Proof.
  destruct (unusable_verdict_resolves atAnalysing 0
              {| msgId := "a2"; base64Image := photo; docket := dkt1001 |}
              GenThrows
              (reachable_run toAnalysing) eq_refl (or_introl eq_refl))
    as (_ & _ & _ & H).
  exact H.
Defined.

(** C9.  [updateMessageStatus] keeps the length and the order of the log:
    at every position the message keeps its identifier, role and image; a
    message whose identifier differs from the one given is kept as it is; a
    message that bears it gets the given status, and the given content when
    there is one.  Nothing else in the state changes. *)
Theorem resolve_by_identity (s : App) (target : string)
    (st : option Status) (c : option string) :
  let s' := exec (updateMessageStatus target st c) s in
  length (messages s') = length (messages s)
  /\ (forall i m, nth_error (messages s) i = Some m ->
        exists m', nth_error (messages s') i = Some m'
                   /\ Message.id m' = Message.id m
                   /\ Message.role m' = Message.role m
                   /\ Message.image m' = Message.image m
                   /\ (Message.id m <> target -> m' = m)
                   /\ (Message.id m = target ->
                       Message.status m' = st
                       /\ Message.content m' =
                          match c with Some c' => c' | None => Message.content m end))
  /\ input s' = input s /\ isTyping s' = isTyping s
  /\ currentDocket s' = currentDocket s /\ pendingPodImage s' = pendingPodImage s
  /\ inflight s' = inflight s /\ requests s' = requests s.
Proof.
  act. split; [apply length_map|]. split; [|repeat split].
  intros i m Hi. eexists. split; [exact (map_nth_error _ _ _ Hi)|].
  cbv beta. destruct (String.eqb_spec (Message.id m) target) as [He|Hne].
  - repeat split; intros; try reflexivity; contradiction.
  - repeat split; intros; try reflexivity; contradiction.
Qed.

(** The identifier an analysis resolves is the one [addMessage] returned
    for its loading message. *)
Lemma upload_records_id (s : App) (d : Docket.t) (rest i1 i2 : string) :
  currentDocket s = Some d ->
  let s' := step s (FileChosen (Some (ReadOk rest)) i1 i2) in
  messages s' =
    (messages s
     ++ [Message.mk i1 user "Uploaded POD image" (Some (dataURL rest)) None;
         Message.mk i2 assistant "Analyzing POD image against docket details..."
           None (Some loading)])%list
  /\ inflight s' =
     (inflight s ++ [{| msgId := i2; base64Image := dataURL rest; docket := d |}])%list.
Proof.
  intros Hd. cbn [step]. act. rewrite Hd. fields. rewrite <- app_assoc.
  split; reflexivity.
Qed.

Lemma answer_updates_recorded_id (s : App) (k : nat) (j : Job) (reply : GenReply) :
  nth_error (inflight s) k = Some j ->
  exists st c,
    messages (step s (Answer k reply))
    = messages (exec (updateMessageStatus (msgId j) (Some st) (Some c)) s).
Proof.
  intros Hk. rewrite (step_answer s k j reply Hk). cbv zeta. act.
  destruct reply; eauto.
Qed.

(** ** Scenarios *)

Example trim_ex : trim "  please Update DKT-1001 " = "please Update DKT-1001".
Proof. reflexivity. Qed.

Example docketMatch_first :
  option_map toUpperCase (docketMatch "look up dkt-77 and DKT-1001x") = Some "DKT-77".
Proof. reflexivity. Qed.

Example docketMatch_none : docketMatch "DKT- 12, DK-1, dkt-" = None.
Proof. reflexivity. Qed.

Example classify_ex :
  classify "DKT-1002" = DocketLookup "DKT-1002"
  /\ classify "Please update" = RequestCommit
  /\ classify "where is my parcel?" = Freeform.
Proof. repeat split. Qed.

(** Looking up DKT-1002 answers with customer and address and makes the
    docket active. *)
Example scenario_lookup :
  let s := run initial [Typed "DKT-1002"; Submit (serving "u1" "a1" dkt1002)] in
  phase s = DocketActive
  /\ exists m, nth_error (messages s) 2 = Some m
               /\ includes "Jane Smith" (Message.content m) = true
               /\ includes "456 Oak Ave, Metropolis" (Message.content m) = true.
Proof. split; [reflexivity|]. eexists. repeat split. Qed.

(** An upload without an active docket sends nothing to the vision model. *)
Example scenario_upload_without_docket :
  let s := step initial (FileChosen (Some (ReadOk jpeg)) "u1" "a1") in
  requests s = [] /\ inflight s = [] /\ phase s = NoDocket
  /\ length (messages s) = 2.
Proof. repeat split. Qed.

(** Two analyses in flight: the answer to the older one rewrites its own
    loading message and leaves the later one loading. *)
Example older_analysis_answered_first :
  let s := run atAnalysing
             [FileChosen (Some (ReadOk jpeg)) "u3" "a3";
              Answer 0 (GenReturns (Some badVerdict))] in
  option_map Message.status (nth_error (messages s) 4) = Some (Some success)
  /\ option_map Message.status (nth_error (messages s) 6) = Some (Some loading)
  /\ map msgId (inflight s) = ["a3"]
  /\ pendingPodImage s = None.
Proof. repeat split. Qed.

(** * Further properties *)

(** ** Docket identifiers and the regular expression *)

Lemma isDigit_upper (c : ascii) : isDigit (upperAsciiChar c) = isDigit c.
Proof. destruct c as [[] [] [] [] [] [] [] []]; reflexivity. Qed.

Lemma isDigit_fixed (c : ascii) :
  isDigit c = true -> upperAsciiChar c = c /\ lowerChar c = c /\ isSpace c = false.
Proof. destruct c as [[] [] [] [] [] [] [] []]; try discriminate; now repeat split. Qed.

Lemma isDigit_no_cue (c : ascii) :
  isDigit c = true -> Ascii.eqb "u" c = false /\ Ascii.eqb "p" c = false.
Proof. destruct c as [[] [] [] [] [] [] [] []]; try discriminate; now split. Qed.

Lemma eqCI_upper (pat c : ascii) :
  isLowerAscii pat = false -> upperAsciiChar (lowerChar pat) = pat ->
  eqCI pat c = true -> upperAsciiChar c = pat.
Proof.
  intros Hp Hl H. unfold eqCI in H. apply orb_true_iff in H as [H|H].
  - apply Ascii.eqb_eq in H as ->. unfold upperAsciiChar. now rewrite Hp.
  - apply Ascii.eqb_eq in H as ->. exact Hl.
Qed.

Lemma upper_eqCI (c : ascii) :
  (upperAsciiChar c = "D"%char -> eqCI "D" c = true)
  /\ (upperAsciiChar c = "K"%char -> eqCI "K" c = true)
  /\ (upperAsciiChar c = "T"%char -> eqCI "T" c = true)
  /\ (upperAsciiChar c = "-"%char -> c = "-"%char).
Proof.
  destruct c as [[] [] [] [] [] [] [] []]; repeat split; intros H;
    try reflexivity; discriminate H.
Qed.

Lemma allDigits_upper (s : string) : allDigits (toUpperCase s) = allDigits s.
Proof.
  induction s as [|c s IH]; [reflexivity|].
  cbn [toUpperCase allDigits]. now rewrite isDigit_upper, IH.
Qed.

Lemma allDigits_fixed (s : string) : allDigits s = true -> toUpperCase s = s.
Proof.
  induction s as [|c s IH]; [reflexivity|]. cbn [allDigits toUpperCase].
  intros H. apply andb_true_iff in H as [Hc Hs].
  now rewrite (proj1 (isDigit_fixed c Hc)), (IH Hs).
Qed.

Lemma isEmpty_toUpperCase (s : string) : isEmpty (toUpperCase s) = isEmpty s.
Proof. destruct s; reflexivity. Qed.

Lemma allDigits_digits (s : string) : allDigits (digits s) = true.
Proof.
  induction s as [|c s IH]; [reflexivity|]. cbn [digits].
  destruct (isDigit c) eqn:Hc; [|reflexivity]. cbn [allDigits]. now rewrite Hc.
Qed.

Lemma digits_app (ds post : string) :
  allDigits ds = true -> digits (ds ++ post) = ds ++ digits post.
Proof.
  induction ds as [|c ds IH]; [reflexivity|]. cbn [allDigits append digits].
  intros H. apply andb_true_iff in H as [-> Hs]. now rewrite (IH Hs).
Qed.

(** The text is its leading digits followed by a rest that starts with no
    digit. *)
Lemma digits_split (s : string) :
  exists post, s = digits s ++ post /\ digits post = "".
Proof.
  induction s as [|c s (post & Hs & Hp)].
  - now exists "".
  - cbn [digits]. destruct (isDigit c) eqn:Hc.
    + exists post. cbn [append]. now rewrite <- Hs.
    + exists (String c s). split; [reflexivity|]. cbn [digits]. now rewrite Hc.
Qed.

(** What a match at the head of [s] looks like. *)
Lemma matchHere_some (s m : string) :
  matchHere s = Some m ->
  exists d k t rest,
    s = String d (String k (String t (String "-" rest)))
    /\ m = String d (String k (String t (String "-" (digits rest))))
    /\ eqCI "D" d = true /\ eqCI "K" k = true /\ eqCI "T" t = true
    /\ isEmpty (digits rest) = false.
Proof.
  destruct s as [|d [|k [|t [|h rest]]]]; try discriminate. cbn [matchHere].
  destruct (eqCI "D" d) eqn:Hd; [|discriminate].
  destruct (eqCI "K" k) eqn:Hk; [|discriminate].
  destruct (eqCI "T" t) eqn:Ht; [|discriminate].
  destruct (Ascii.eqb_spec h "-") as [->|]; [|discriminate]. cbn [andb].
  destruct (digits rest) as [|c ds] eqn:Hds; [discriminate|].
  intros [= <-]. exists d, k, t, rest. rewrite Hds. now repeat split.
Qed.

Lemma append_nil_r (s : string) : s ++ "" = s.
Proof. induction s; cbn; congruence. Qed.

Lemma matchHere_token (tok post : string) :
  isToken tok = true -> matchHere (tok ++ post) = Some (tok ++ digits post).
Proof.
  unfold isToken, isDocketId.
  destruct tok as [|a [|b [|c [|h ds]]]]; try discriminate.
  cbn [toUpperCase]. intros H.
  repeat (apply andb_true_iff in H as [H ?]).
  apply Ascii.eqb_eq in H.
  repeat match goal with E : Ascii.eqb _ _ = true |- _ => apply Ascii.eqb_eq in E end.
  rewrite allDigits_upper in *. rewrite isEmpty_toUpperCase in *.
  apply (proj1 (upper_eqCI a)) in H.
  match goal with E : upperAsciiChar b = _ |- _ => apply (upper_eqCI b) in E end.
  match goal with E : upperAsciiChar c = _ |- _ => apply (upper_eqCI c) in E end.
  match goal with E : upperAsciiChar h = _ |- _ => apply (upper_eqCI h) in E; subst h end.
  cbn [append matchHere]. rewrite H.
  repeat match goal with E : eqCI _ _ = true |- _ => rewrite E end.
  rewrite ?Ascii.eqb_refl. cbn [andb].
  rewrite digits_app by assumption.
  destruct ds; [discriminate | reflexivity].
Qed.

Lemma matchHere_is_token (s m : string) : matchHere s = Some m -> isToken m = true.
Proof.
  intros H. apply matchHere_some in H as (d & k & t & rest & _ & -> & Hd & Hk & Ht & Hne).
  unfold isToken, isDocketId. cbn [toUpperCase].
  rewrite (eqCI_upper "D" d), (eqCI_upper "K" k), (eqCI_upper "T" t) by (reflexivity || assumption).
  cbn. rewrite isEmpty_toUpperCase, Hne, allDigits_upper. apply allDigits_digits.
Qed.

Lemma docketMatch_cons (c : ascii) (s : string) :
  docketMatch (String c s)
  = match matchHere (String c s) with Some m => Some m | None => docketMatch s end.
Proof. reflexivity. Qed.

Lemma docketMatch_nil : docketMatch "" = None.
Proof. reflexivity. Qed.

(** The regular expression finds a match exactly in the texts that hold a
    token: the letters D, K, T in either case, a hyphen, and one digit or
    more. *)
Theorem docketMatch_finds_token (u : string) :
  isSome (docketMatch u) = true
  <-> exists pre tok post, u = pre ++ tok ++ post /\ isToken tok = true.
Proof.
  split.
  - induction u as [|c u IH]; [discriminate|].
    rewrite docketMatch_cons.
    destruct (matchHere (String c u)) as [m|] eqn:Hm.
    + intros _. pose proof (matchHere_is_token _ _ Hm) as Htok.
      apply matchHere_some in Hm as (d & k & t & rest & -> & -> & _).
      destruct (digits_split rest) as (post & Hrest & _).
      exists "", (String d (String k (String t (String "-" (digits rest))))), post.
      split; [|exact Htok]. cbn [append]. now rewrite <- Hrest.
    + intros H. destruct (IH H) as (pre & tok & post & -> & Htok).
      now exists (String c pre), tok, post.
  - intros (pre & tok & post & -> & Htok).
    induction pre as [|c pre IH].
    + cbn [append]. destruct (tok ++ post) as [|c r] eqn:E.
      * destruct tok; discriminate.
      * rewrite docketMatch_cons, <- E, (matchHere_token tok post Htok). reflexivity.
    + cbn [append]. rewrite docketMatch_cons.
      now destruct (matchHere (String c (pre ++ tok ++ post))).
Qed.

(** The match returned is a token of the text, the leftmost one, with all
    the digits that follow it. *)
Theorem docketMatch_leftmost_longest (u m : string) :
  docketMatch u = Some m ->
  isToken m = true
  /\ exists pre post,
       u = pre ++ m ++ post
       /\ digits post = ""
       /\ forall a b, pre = a ++ b -> isEmpty b = false ->
                      matchHere (b ++ m ++ post) = None.
Proof.
  revert m. induction u as [|c u IH]; intros m; [discriminate|].
  rewrite docketMatch_cons.
  destruct (matchHere (String c u)) as [m'|] eqn:Hm.
  - intros [= <-]. split; [exact (matchHere_is_token _ _ Hm)|].
    apply matchHere_some in Hm as (d & k & t & rest & -> & -> & _).
    destruct (digits_split rest) as (post & Hrest & Hpost).
    exists "", post. split; [cbn [append]; now rewrite <- Hrest|].
    split; [exact Hpost|].
    intros a b Hab Hb. destruct a; destruct b; discriminate.
  - intros H. destruct (IH m H) as (Htok & pre & post & -> & Hpost & Hleft).
    split; [exact Htok|]. exists (String c pre), post.
    split; [reflexivity|]. split; [exact Hpost|].
    intros [|x a] b Hab Hb; cbn [append] in Hab.
    + subst b. exact Hm.
    + injection Hab as _ Hp. now apply (Hleft a b).
Qed.

Lemma docketMatch_leftmost_longest_witness :
  isToken "dkt-77" = true.
Proof.
  exact (proj1 (docketMatch_leftmost_longest "see dkt-77, then DKT-1001" "dkt-77" eq_refl)).
Defined.

Lemma docketMatch_is_token (u m : string) : docketMatch u = Some m -> isToken m = true.
Proof.
  revert m. induction u as [|c u IH]; intros m; [discriminate|].
  rewrite docketMatch_cons.
  destruct (matchHere (String c u)) as [m'|] eqn:Hm; [|apply IH].
  intros [= <-]. exact (matchHere_is_token _ _ Hm).
Qed.

Lemma lookup_id_canonical_aux (u id : string) :
  classify u = DocketLookup id -> isDocketId id = true.
Proof.
  intros H. apply classify_lookup in H as (_ & m & Hm & ->).
  exact (docketMatch_is_token u m Hm).
Qed.



Lemma lastNonSpace_digits (c : ascii) (ds : string) :
  allDigits (String c ds) = true -> lastNonSpace (String c ds) = true.
Proof.
  revert c. induction ds as [|x ds IH]; intros c H; cbn [allDigits] in H;
    apply andb_true_iff in H as [Hc Hs].
  - cbn. now rewrite (proj2 (proj2 (isDigit_fixed c Hc))).
  - change (lastNonSpace (String x ds) = true). now apply IH.
Qed.

Lemma trimEnd_fixed (s : string) : lastNonSpace s = true -> trimEnd s = s.
Proof.
  induction s as [|c s IH]; [reflexivity|]. intros H. cbn [trimEnd].
  destruct s as [|x s].
  - cbn in H |- *. destruct (isSpace c); [discriminate | reflexivity].
  - rewrite (IH H). cbn [isEmpty]. now rewrite andb_false_r.
Qed.

Lemma includes_skip (a : ascii) (n : string) (c : ascii) (s : string) :
  Ascii.eqb a c = false -> includes (String a n) (String c s) = includes (String a n) s.
Proof. intros H. cbn [includes startsWith]. now rewrite H. Qed.

Lemma no_cue_in_digits (ds : string) :
  allDigits ds = true ->
  includes "update" (toLowerCase ds) = false
  /\ includes "please update" (toLowerCase ds) = false.
Proof.
  induction ds as [|c ds IH]; [now split|]. cbn [allDigits]. intros H.
  apply andb_true_iff in H as [Hc Hs]. destruct (IH Hs) as [IH1 IH2].
  cbn [toLowerCase]. rewrite (proj1 (proj2 (isDigit_fixed c Hc))).
  destruct (isDigit_no_cue c Hc) as [Hu Hp].
  now rewrite (includes_skip _ _ _ _ Hu), (includes_skip _ _ _ _ Hp).
Qed.

Lemma docketId_parts (id : string) :
  isDocketId id = true ->
  exists c ds, id = "DKT-" ++ String c ds /\ allDigits (String c ds) = true.
Proof.
  unfold isDocketId. destruct id as [|a [|b [|c [|h ds]]]]; try discriminate.
  intros H. repeat (apply andb_true_iff in H as [H ?]).
  apply Ascii.eqb_eq in H.
  repeat match goal with E : Ascii.eqb _ _ = true |- _ => apply Ascii.eqb_eq in E end.
  subst. destruct ds as [|x ds]; [discriminate|]. now exists x, ds.
Qed.

Lemma docketId_classified (id : string) :
  isDocketId id = true -> trim id = id /\ classify id = DocketLookup id.
Proof.
  intros H. destruct (docketId_parts id H) as (c & ds & -> & Hds).
  assert (Ht : trim ("DKT-" ++ String c ds) = "DKT-" ++ String c ds).
  { unfold trim. cbn [append trimStart]. cbn -[trimEnd].
    apply trimEnd_fixed. exact (lastNonSpace_digits c ds Hds). }
  split; [exact Ht|].
  destruct (no_cue_in_digits _ Hds) as [H1 H2].
  apply classify_lookup. split.
  - change (toLowerCase ("DKT-" ++ String c ds))
      with ("dkt-" ++ toLowerCase (String c ds)).
    cbn [append]. rewrite !includes_skip by reflexivity. now rewrite H1, H2.
  - assert (Hup : toUpperCase ("DKT-" ++ String c ds) = "DKT-" ++ String c ds).
    { change (toUpperCase ("DKT-" ++ String c ds))
        with ("DKT-" ++ toUpperCase (String c ds)).
      now rewrite (allDigits_fixed _ Hds). }
    exists ("DKT-" ++ String c ds). split; [|now rewrite Hup].
    assert (Htok : isToken ("DKT-" ++ String c ds) = true)
      by (unfold isToken; now rewrite Hup).
    pose proof (matchHere_token ("DKT-" ++ String c ds) "" Htok) as Hm.
    rewrite !append_nil_r in Hm. cbn [append] in Hm |- *.
    rewrite docketMatch_cons. now rewrite Hm.
Qed.

(** Submitting a docket identifier in normal form looks up that very
    identifier: the one request of the submission is the GET for it. *)
Theorem docket_id_round_trip (s : App) (env : Env) :
  isDocketId (input s) = true ->
  classify (trim (input s)) = DocketLookup (input s)
  /\ requests (step s (Submit env)) = (requests s ++ [GetDocket (input s)])%list.
Proof.
  intros H. destruct (docketId_classified _ H) as [Ht Hc].
  assert (Hc' : classify (trim (input s)) = DocketLookup (input s)) by now rewrite Ht.
  split; [exact Hc'|].
  cbn [step]. now rewrite (handleSend_lookup s env _ Hc').
Qed.

Lemma docket_id_round_trip_witness :
  requests (step (step initial (Typed "DKT-1003")) (Submit (missing "u1" "a1")))
  = [GetDocket "DKT-1003"].
Proof.
  exact (proj2 (docket_id_round_trip (step initial (Typed "DKT-1003"))
                  (missing "u1" "a1") eq_refl)).
Defined.

Lemma docketMatch_finds_token_witness : isSome (docketMatch "see dkt-77 now") = true.
Proof.
  apply (proj2 (docketMatch_finds_token "see dkt-77 now")).
  exists "see ", "dkt-77", " now". split; reflexivity.
Defined.

(** ** The other branches of [handleSend] *)

Lemma trimStart_head (s : string) :
  allSpace s = false -> exists c r, trimStart s = String c r /\ isSpace c = false.
Proof.
  induction s as [|c s IH]; [discriminate|]. cbn [allSpace trimStart].
  destruct (isSpace c) eqn:Hc; [exact IH | now exists c, s].
Qed.

Lemma trim_nonblank (s : string) : allSpace s = false -> isEmpty (trim s) = false.
Proof.
  intros H. destruct (trimStart_head s H) as (c & r & E & Hc).
  unfold trim. rewrite E. cbn [trimEnd]. now rewrite Hc.
Qed.

Lemma classify_freeform (u : string) :
  classify u = Freeform <->
  includes "update" (toLowerCase u) || includes "please update" (toLowerCase u) = false
  /\ docketMatch u = None.
Proof.
  unfold classify.
  destruct (includes "update" (toLowerCase u) || includes "please update" (toLowerCase u)).
  - split; [discriminate | intros [? _]; discriminate].
  - destruct (docketMatch u); split; try discriminate; try tauto.
    intros [_ ?]; discriminate.
Qed.

(** [handleSend] on a message that is neither a commit request nor a
    lookup, as the state it produces. *)
Lemma handleSend_freeform (s : App) (env : Env) :
  isEmpty (trim (input s)) = false ->
  classify (trim (input s)) = Freeform ->
  exec (handleSend s env) s =
  let userMsg := trim (input s) in
  {| messages :=
       ((messages s ++ [Message.mk (id1 env) user userMsg None None])
        ++ [Message.mk (id2 env) assistant
              (match genReply env with
               | GenReturns text => orElse text "I'm not sure how to help with that."
               | GenThrows => "I'm having trouble connecting right now."
               end) None None])%list;
     input := ""; isTyping := false; currentDocket := currentDocket s;
     pendingPodImage := pendingPodImage s; inflight := inflight s;
     requests := (requests s ++ [GenerateText userMsg])%list |}.
Proof.
  intros Hne Hc. apply classify_freeform in Hc as [Hu Hm].
  act. rewrite Hne, Hu, Hm. cbv zeta. destruct (genReply env); reflexivity.
Qed.

(** A submission whose input holds a character that is not white space
    adds two messages to the log, the trimmed text as the user's and one
    reply of the assistant, empties the text box, sends at most one request
    and leaves the typing flag down when it sent one. *)
Theorem submit_adds_two_messages (s : App) (env : Env) :
  allSpace (input s) = false ->
  let s' := step s (Submit env) in
  exists reply sent,
    messages s' =
      (messages s ++ [Message.mk (id1 env) user (trim (input s)) None None;
                      Message.mk (id2 env) assistant reply None None])%list
    /\ input s' = ""
    /\ requests s' = (requests s ++ sent)%list
    /\ length sent <= 1
    /\ isTyping s' = match sent with [] => isTyping s | _ => false end
    /\ inflight s' = inflight s.
Proof.
  intros H. apply trim_nonblank in H. cbn [step].
  destruct (classify (trim (input s))) as [|id|] eqn:Hc.
  - rewrite (handleSend_commit s env Hc). cbv zeta.
    destruct (currentDocket s) as [d|]; [destruct (truthy (pendingPodImage s))|];
      fields; rewrite <- app_assoc; eexists.
    + exists [PostUpdate (Docket.id d) "Delivered" true]. repeat split. auto.
    + exists []. rewrite app_nil_r. repeat split. auto.
    + exists []. rewrite app_nil_r. repeat split. auto.
  - rewrite (handleSend_lookup s env id Hc). cbv zeta. fields.
    rewrite <- app_assoc. eexists. exists [GetDocket id]. repeat split. auto.
  - rewrite (handleSend_freeform s env H Hc). cbv zeta. fields.
    rewrite <- app_assoc. eexists. eexists [_]. repeat split. auto.
Qed.

Lemma submit_adds_two_messages_witness :
  exists reply sent,
    messages (step (step initial (Typed " hi ")) (Submit (offline "u1" "a1"))) =
      (messages (step initial (Typed " hi "))
       ++ [Message.mk "u1" user "hi" None None;
           Message.mk "a1" assistant reply None None])%list
    /\ input (step (step initial (Typed " hi ")) (Submit (offline "u1" "a1"))) = ""
    /\ requests (step (step initial (Typed " hi ")) (Submit (offline "u1" "a1")))
       = (requests (step initial (Typed " hi ")) ++ sent)%list
    /\ length sent <= 1
    /\ isTyping (step (step initial (Typed " hi ")) (Submit (offline "u1" "a1")))
       = match sent with [] => isTyping (step initial (Typed " hi ")) | _ => false end
    /\ inflight (step (step initial (Typed " hi ")) (Submit (offline "u1" "a1")))
       = inflight (step initial (Typed " hi ")).
Proof.
  exact (submit_adds_two_messages (step initial (Typed " hi ")) (offline "u1" "a1") eq_refl).
Defined.

(** A commit request without an active docket, or without pending
    evidence, sends nothing to the store and changes neither docket nor
    evidence: it answers that a docket number is needed first when no
    docket is active, and that no POD was verified yet otherwise. *)
Theorem commit_refused (s : App) (env : Env) :
  classify (trim (input s)) = RequestCommit ->
  currentDocket s = None \/ truthy (pendingPodImage s) = false ->
  let s' := step s (Submit env) in
  requests s' = requests s
  /\ currentDocket s' = currentDocket s
  /\ pendingPodImage s' = pendingPodImage s
  /\ isTyping s' = isTyping s
  /\ messages s' =
     (messages s
      ++ [Message.mk (id1 env) user (trim (input s)) None None;
          Message.mk (id2 env) assistant
            (match currentDocket s with
             | None => "Please provide a docket number first."
             | Some _ =>
                 "I haven't verified a POD for this docket yet. Please upload the POD image first."
             end) None None])%list.
Proof.
  intros Hc Hpre. cbn [step]. rewrite (handleSend_commit s env Hc). cbv zeta.
  destruct (currentDocket s) as [d|] eqn:Hd.
  - destruct Hpre as [Hn | Hp]; [discriminate|]. rewrite Hp. fields.
    rewrite <- app_assoc. repeat split.
  - fields. rewrite <- app_assoc. repeat split.
Qed.

Lemma commit_refused_witness :
  requests (step (step initial (Typed "please update")) (Submit (serving "u1" "a1" dkt1001)))
  = requests (step initial (Typed "please update")).
Proof.
  exact (proj1 (commit_refused (step initial (Typed "please update"))
                  (serving "u1" "a1" dkt1001) eq_refl (or_introl eq_refl))).
Defined.

(** A message that is neither a commit request nor a lookup goes to the
    language model as it is, trimmed; the reply is the text of the model,
    a fixed text when the model returns none, and a connection notice when
    the call fails; docket and evidence stay as they were. *)
Theorem freeform_forwarded (s : App) (env : Env) :
  allSpace (input s) = false ->
  classify (trim (input s)) = Freeform ->
  let s' := step s (Submit env) in
  requests s' = (requests s ++ [GenerateText (trim (input s))])%list
  /\ messages s' =
     (messages s
      ++ [Message.mk (id1 env) user (trim (input s)) None None;
          Message.mk (id2 env) assistant
            (match genReply env with
             | GenReturns (Some (String c t)) => String c t
             | GenReturns _ => "I'm not sure how to help with that."
             | GenThrows => "I'm having trouble connecting right now."
             end) None None])%list
  /\ currentDocket s' = currentDocket s
  /\ pendingPodImage s' = pendingPodImage s
  /\ isTyping s' = false.
Proof.
  intros H Hc. apply trim_nonblank in H. cbn [step].
  rewrite (handleSend_freeform s env H Hc). cbv zeta. fields.
  rewrite <- app_assoc. repeat split.
Qed.

Lemma freeform_forwarded_witness :
  requests (step (step atEvidence (Typed " where is my parcel? ")) (Submit (offline "u3" "a3")))
  = (requests (step atEvidence (Typed " where is my parcel? "))
     ++ [GenerateText "where is my parcel?"])%list.
Proof.
  exact (proj1 (freeform_forwarded (step atEvidence (Typed " where is my parcel? "))
                  (offline "u3" "a3") eq_refl eq_refl)).
Defined.

Lemma includes_app_r (n p s : string) : includes n s = true -> includes n (p ++ s) = true.
Proof.
  intros H. induction p as [|c p IH]; [exact H|].
  cbn [append includes]. rewrite IH. apply orb_true_r.
Qed.

Lemma includes_head (n s : string) : includes n (n ++ s) = true.
Proof. apply includes_startsWith, startsWith_app. Qed.

(** The confirmation of a lookup shows the identifier, the customer, the
    address and the status of the docket the store returned, and that
    docket becomes the active one. *)
Theorem lookup_shows_docket (s : App) (env : Env) (id : string) (d : Docket.t) :
  classify (trim (input s)) = DocketLookup id ->
  getReply env = GetOk d ->
  let s' := step s (Submit env) in
  messages s' =
     (messages s ++ [Message.mk (id1 env) user (trim (input s)) None None;
                     Message.mk (id2 env) assistant (foundText d) None None])%list
  /\ includes (Docket.id d) (foundText d) = true
  /\ includes (Docket.customer_name d) (foundText d) = true
  /\ includes (Docket.delivery_address d) (foundText d) = true
  /\ includes (Docket.status d) (foundText d) = true
  /\ currentDocket s' = Some d
  /\ isTyping s' = false.
Proof.
  intros Hc Hr. cbn [step]. rewrite (handleSend_lookup s env id Hc). cbv zeta.
  rewrite Hr. fields. rewrite <- app_assoc. unfold foundText.
  repeat split; repeat (apply includes_head || apply includes_app_r).
Qed.

Lemma lookup_shows_docket_witness :
  includes "Jane Smith" (foundText dkt1002) = true.
Proof.
  destruct (lookup_shows_docket (step initial (Typed "dkt-1002"))
              (serving "u1" "a1" dkt1002) "DKT-1002" dkt1002 eq_refl eq_refl)
    as (_ & _ & H & _).
  exact H.
Defined.

(** ** Uploads *)

Lemma no_comma_cons (c : ascii) (s : string) :
  includes "," (String c s) = false ->
  Ascii.eqb c "," = false /\ includes "," s = false.
Proof.
  cbn [includes startsWith]. rewrite andb_true_r, (Ascii.eqb_sym "," c).
  intros H. now apply orb_false_iff in H.
Qed.

Lemma upToComma_all (s : string) : includes "," s = false -> upToComma s = s.
Proof.
  induction s as [|c s IH]; [reflexivity|]. intros H.
  apply no_comma_cons in H as [Hc Hs]. cbn [upToComma]. now rewrite Hc, (IH Hs).
Qed.

Lemma splitComma1_payload (a b : string) :
  includes "," a = false -> includes "," b = false ->
  splitComma1 (a ++ "," ++ b) = Some b.
Proof.
  intros Ha Hb. induction a as [|c a IH].
  - cbn [append splitComma1]. rewrite Ascii.eqb_refl. now rewrite (upToComma_all b Hb).
  - apply no_comma_cons in Ha as [Hc Ha]. cbn [append splitComma1].
    rewrite Hc. exact (IH Ha).
Qed.

(** Without a file, or without an active docket, an upload starts no
    analysis: nothing is sent, no job is kept, docket and evidence stay;
    with a file but no docket the assistant asks to search for a docket
    first, without a file the state is the one before. *)
Theorem upload_needs_file_and_docket (s : App) (file : option FileRead) (i1 i2 : string) :
  file = None \/ currentDocket s = None ->
  let s' := step s (FileChosen file i1 i2) in
  requests s' = requests s
  /\ inflight s' = inflight s
  /\ currentDocket s' = currentDocket s
  /\ pendingPodImage s' = pendingPodImage s
  /\ isTyping s' = isTyping s
  /\ messages s' =
     match file with
     | None => messages s
     | Some _ =>
         (messages s
          ++ [Message.mk i1 assistant
                "Please search for a docket (e.g., DKT-1001) before uploading the POD."
                None None])%list
     end
  /\ (file = None -> s' = s).
Proof.
  intros H. cbn [step]. act. destruct file as [f|].
  - destruct H as [H|H]; [discriminate|]. rewrite H. fields.
    repeat split; intros; congruence.
  - now repeat split.
Qed.

Lemma upload_needs_file_and_docket_witness :
  requests (step initial (FileChosen (Some (ReadOk jpeg)) "u1" "a1")) = requests initial.
Proof.
  exact (proj1 (upload_needs_file_and_docket initial (Some (ReadOk jpeg)) "u1" "a1"
                  (or_intror eq_refl))).
Defined.

(** An upload with an active docket sends one request to the vision model,
    with the identifier, the customer and the address of that docket and,
    as image data, the text after the first comma of the data URL, which is
    the payload of the URL when neither media type nor payload holds a
    comma; the typing flag is raised, docket and evidence stay. *)
Theorem upload_starts_analysis (s : App) (d : Docket.t) (rest i1 i2 : string) :
  currentDocket s = Some d ->
  let s' := step s (FileChosen (Some (ReadOk rest)) i1 i2) in
  requests s' =
    (requests s
     ++ [GenerateVision (Docket.id d) (Docket.customer_name d) (Docket.delivery_address d)
           (splitComma1 (dataURL rest))])%list
  /\ (forall mime payload,
        rest = mime ++ "," ++ payload ->
        includes "," mime = false -> includes "," payload = false ->
        splitComma1 (dataURL rest) = Some payload)
  /\ isTyping s' = true
  /\ currentDocket s' = currentDocket s
  /\ pendingPodImage s' = pendingPodImage s
  /\ length (messages s') = length (messages s) + 2
  /\ length (inflight s') = length (inflight s) + 1.
Proof.
  intros Hd. cbn [step]. act. rewrite Hd. fields.
  split; [reflexivity|]. split.
  - intros mime payload -> Hm Hp. unfold dataURL.
    rewrite <- append_assoc. apply splitComma1_payload; [|exact Hp].
    cbn [append]. rewrite !includes_skip by reflexivity. exact Hm.
  - rewrite !length_app. cbn [length]. repeat split; try congruence; lia.
Qed.

Lemma upload_starts_analysis_witness :
  splitComma1 (dataURL jpeg) = Some "/9j/4AAQSkZJRg==".
Proof.
  destruct (upload_starts_analysis (step (step initial (Typed "DKT-1001"))
                                      (Submit (serving "u1" "a1" dkt1001)))
              dkt1001 jpeg "u2" "a2" eq_refl) as (_ & H & _).
  exact (H "image/jpeg;base64" "/9j/4AAQSkZJRg==" eq_refl eq_refl eq_refl).
Defined.

(** When the file cannot be read, the upload sends nothing and keeps no
    job: the loading message it adds is rewritten at once, with every
    message of its identifier, to status error and the fixed apology, and
    the typing flag is down. *)
Theorem upload_read_failure (s : App) (d : Docket.t) (i1 i2 : string) :
  currentDocket s = Some d ->
  let s' := step s (FileChosen (Some ReadFails) i1 i2) in
  requests s' = requests s
  /\ inflight s' = inflight s
  /\ currentDocket s' = currentDocket s
  /\ pendingPodImage s' = pendingPodImage s
  /\ isTyping s' = false
  /\ messages s' =
     map (fun m => if String.eqb (Message.id m) i2
                   then withStatus (Some error) (Some apology) m else m)
       (messages s
        ++ [Message.mk i1 user "Uploaded POD image" None None;
            Message.mk i2 assistant "Analyzing POD image against docket details..."
              None (Some loading)])%list
  /\ exists front, messages s' =
       (front ++ [Message.mk i2 assistant apology None (Some error)])%list.
Proof.
  intros Hd. cbn [step]. act. rewrite Hd. fields. rewrite <- app_assoc.
  repeat split; [exact Hd|].
  rewrite app_assoc, map_app. cbn [map Message.id]. rewrite String.eqb_refl.
  eexists. reflexivity.
Qed.

Lemma upload_read_failure_witness :
  inflight (step atEvidence (FileChosen (Some ReadFails) "u3" "a3")) = inflight atEvidence.
Proof.
  destruct (upload_read_failure atEvidence dkt1001 "u3" "a3" eq_refl) as (_ & H & _).
  exact H.
Defined.

(** ** The buttons that fill the text box and call [handleSend] *)

Lemma handleSend_after_setInput (s : App) (env : Env) (v : string) :
  exec (setInput v ;; handleSend s env) s
  = if isEmpty (trim (input s)) then exec (setInput v) s else exec (handleSend s env) s.
Proof.
  act. destruct (isEmpty (trim (input s))); [reflexivity|].
  split_match; reflexivity.
Qed.

(** A click on a suggested docket runs [handleSend] on the text the box
    held before the click: on a blank box it only writes the identifier
    into the box, as typing it would, and sends nothing; on any other text
    it submits that text, not the identifier. *)
Theorem suggestion_click_uses_old_input (s : App) (k : nat) (id : string) (env : Env) :
  currentDocket s = None ->
  nth_error suggestions k = Some id ->
  (allSpace (input s) = true -> step s (Suggest k env) = step s (Typed id))
  /\ (allSpace (input s) = false -> step s (Suggest k env) = step s (Submit env)).
Proof.
  intros Hd Hk. cbn [step]. rewrite Hd, Hk, handleSend_after_setInput. split; intros H.
  - now rewrite (trim_allSpace _ H).
  - now rewrite (trim_nonblank _ H).
Qed.

Lemma suggestion_click_uses_old_input_witness :
  step initial (Suggest 1 (serving "u1" "a1" dkt1002)) = step initial (Typed "DKT-1002").
Proof.
  exact (proj1 (suggestion_click_uses_old_input initial 1 "DKT-1002"
                  (serving "u1" "a1" dkt1002) eq_refl eq_refl) eq_refl).
Defined.

(** With the text box blank, a first click on Confirm Update only writes
    "Please update" into the box: nothing is sent and the evidence is still
    pending.  A second click then commits: when the store accepts the
    update, the request for the active docket is the one sent, the evidence
    is cleared and the docket stays. *)
Theorem confirm_needs_second_click (s : App) (d : Docket.t) (env env' : Env) :
  currentDocket s = Some d ->
  truthy (pendingPodImage s) = true ->
  allSpace (input s) = true ->
  postReply env' = PostReplied true ->
  let s1 := step s (ConfirmUpdate env) in
  let s2 := step s1 (ConfirmUpdate env') in
  s1 = step s (Typed "Please update")
  /\ requests s1 = requests s
  /\ pendingPodImage s1 = pendingPodImage s
  /\ requests s2 = (requests s ++ [PostUpdate (Docket.id d) "Delivered" true])%list
  /\ pendingPodImage s2 = None
  /\ currentDocket s2 = Some d.
Proof.
  intros Hd Hp Hb Hr.
  assert (H1 : step s (ConfirmUpdate env) = step s (Typed "Please update")).
  { cbn [step]. rewrite Hd, Hp. cbn [isSome andb].
    now rewrite handleSend_after_setInput, (trim_allSpace _ Hb). }
  cbv zeta. rewrite H1. split; [reflexivity|].
  set (s1 := step s (Typed "Please update")).
  assert (Hd1 : currentDocket s1 = Some d) by exact Hd.
  assert (Hp1 : truthy (pendingPodImage s1) = true) by exact Hp.
  assert (Hc1 : classify (trim (input s1)) = RequestCommit) by reflexivity.
  split; [reflexivity|]. split; [reflexivity|].
  cbn [step]. rewrite Hd1, Hp1. cbn [isSome andb].
  rewrite handleSend_after_setInput.
  change (isEmpty (trim (input s1))) with false. cbv iota.
  rewrite (handleSend_commit s1 env' Hc1). cbv zeta. rewrite Hd1, Hp1, Hr.
  fields. repeat split.
Qed.

Lemma confirm_needs_second_click_witness :
  pendingPodImage
    (step (step atEvidence (ConfirmUpdate (serving "u3" "a3" dkt1001)))
          (ConfirmUpdate (serving "u4" "a4" dkt1001))) = None.
Proof.
  destruct (confirm_needs_second_click atEvidence dkt1001
              (serving "u3" "a3" dkt1001) (serving "u4" "a4" dkt1001)
              eq_refl eq_refl eq_refl eq_refl) as (_ & _ & _ & _ & H & _).
  exact H.
Defined.

(** ** What every event preserves *)

Lemma skeleton_rewritten (i : string) (st : option Status) (c : option string)
    (l : list Message.t) :
  map skeleton (map (fun m => if String.eqb (Message.id m) i
                              then withStatus st c m else m) l)
  = map skeleton l.
Proof.
  rewrite map_map. apply map_ext. intros m.
  now destruct (String.eqb (Message.id m) i).
Qed.

Lemma step_skeleton (s : App) (e : Event) :
  exists tail,
    map skeleton (messages (step s e)) = (map skeleton (messages s) ++ tail)%list.
Proof.
  destruct e; cbn [step]; act; split_match; fields;
    rewrite ?skeleton_rewritten, ?map_app, <- ?app_assoc;
    solve [eexists; reflexivity | exists []; now rewrite app_nil_r].
Qed.

(** The log only grows at its end: along every sequence of events the
    identifiers, roles and images of the messages already there stay at
    their positions; only status and content are ever rewritten. *)
Theorem log_append_only (s : App) (es : list Event) :
  exists tail,
    map skeleton (messages (run s es)) = (map skeleton (messages s) ++ tail)%list.
Proof.
  induction es as [|e es (tail & IH)] using rev_ind.
  - exists []. now rewrite app_nil_r.
  - rewrite run_snoc. destruct (step_skeleton (run s es) e) as (t & Ht).
    exists (tail ++ t)%list. now rewrite Ht, IH, app_assoc.
Qed.

(** Every event sends at most one request, after those already sent; typing,
    an answer of the vision model and a reset send none. *)
Theorem one_request_per_event (s : App) (e : Event) :
  exists sent,
    requests (step s e) = (requests s ++ sent)%list
    /\ length sent <= 1
    /\ match e with
       | Typed _ | Answer _ _ | Reset => sent = []
       | _ => True
       end.
Proof.
  destruct e; cbn [step]; act; split_match; fields;
    solve [ exists []; rewrite app_nil_r; repeat split; auto
          | eexists [_]; repeat split; auto ].
Qed.

Lemma uploaded_step (s : App) (e : Event) (img : string) :
  uploaded s img -> uploaded (step s e) img.
Proof.
  intros (m & Hin & Hr & Hi).
  assert (Hsk : In (Message.id m, user, Some img) (map skeleton (messages (step s e)))).
  { destruct (step_skeleton s e) as (tail & ->). apply in_or_app. left.
    apply in_map_iff. exists m. split; [|exact Hin]. unfold skeleton. now rewrite Hr, Hi. }
  apply in_map_iff in Hsk as (m' & Hm' & Hin'). injection Hm' as _ Hr' Hi'.
  now exists m'.
Qed.

(** The pending evidence after an event: the one before, none, or the image
    of a job that was waiting. *)
Lemma step_pending (s : App) (e : Event) :
  pendingPodImage (step s e) = pendingPodImage s
  \/ pendingPodImage (step s e) = None
  \/ exists j, In j (inflight s) /\ pendingPodImage (step s e) = Some (base64Image j).
Proof.
  destruct e; cbn [step]; try (act; auto; fail).
  - destruct (handleSend_frame s env s) as (_ & _ & [H|H]); auto.
  - destruct (currentDocket s); [auto|]. destruct (nth_error suggestions k); [|auto].
    rewrite handleSend_after_setInput. destruct (isEmpty (trim (input s))); [act; auto|].
    destruct (handleSend_frame s env s) as (_ & _ & [H|H]); auto.
  - destruct (isSome (currentDocket s) && truthy (pendingPodImage s)); [|auto].
    rewrite handleSend_after_setInput. destruct (isEmpty (trim (input s))); [act; auto|].
    destruct (handleSend_frame s env s) as (_ & _ & [H|H]); auto.
  - destruct (handleFileUpload_frame s file i1 i2 s) as (_ & H & _). auto.
  - destruct (nth_error (inflight s) k) as [j|] eqn:Hk; [|auto].
    pose proof (step_answer s k j reply Hk) as H. cbn [step] in H. rewrite Hk in H.
    rewrite H. cbv zeta. fields.
    destruct reply as [text|]; [|auto].
    destruct (includes "pod is good" (toLowerCase (orElse text notAnalyzed))); [|auto].
    right. right. exists j. split; [exact (nth_error_In _ _ Hk) | reflexivity].
  - destruct (isSome (currentDocket s)); act; auto.
Qed.

(** In every reachable state the pending evidence, when there is one, is a
    data URL, hence a non-empty string, and the image of a message of the
    user in the log: evidence is always something that was uploaded. *)
Theorem evidence_was_uploaded (s : App) (img : string) :
  reachable s ->
  pendingPodImage s = Some img ->
  startsWith "data:" img = true
  /\ truthy (pendingPodImage s) = true
  /\ uploaded s img.
Proof.
  intros Hr.
  assert (Hinv : (forall j, In j (inflight s) ->
                    startsWith "data:" (base64Image j) = true
                    /\ uploaded s (base64Image j))
                 /\ (forall i, pendingPodImage s = Some i ->
                       startsWith "data:" i = true /\ uploaded s i)).
  { clear img. induction Hr as [|s e _ [IHj IHp]] using reachable_ind.
    - split; [intros j [] | discriminate].
    - assert (Hj : forall j, In j (inflight (step s e)) ->
                     startsWith "data:" (base64Image j) = true
                     /\ uploaded (step s e) (base64Image j)).
      { intros j Hj.
        apply step_inflight in Hj as [Hj | (rest & i1 & i2 & d & -> & Hd & ->)].
        - destruct (IHj j Hj) as [H1 H2]. split; [exact H1 | now apply uploaded_step].
        - split; [reflexivity|]. cbn [base64Image].
          destruct (upload_records_id s d rest i1 i2 Hd) as [Hm _].
          eexists. split; [rewrite Hm; apply in_or_app; right; now left|].
          now split. }
      split; [exact Hj|]. intros i Hi.
      destruct (step_pending s e) as [H | [H | (j & Hin & H)]]; rewrite H in Hi.
      + destruct (IHp i Hi) as [H1 H2]. split; [exact H1 | now apply uploaded_step].
      + discriminate.
      + injection Hi as <-. destruct (IHj j Hin) as [H1 H2].
        split; [exact H1 | now apply uploaded_step]. }
  intros Hp. destruct (proj2 Hinv img Hp) as [H1 H2].
  split; [exact H1|]. split; [|exact H2].
  rewrite Hp. destruct img; [discriminate | reflexivity].
Qed.

Lemma evidence_was_uploaded_witness : uploaded atEvidence photo.
Proof.
  destruct (evidence_was_uploaded atEvidence photo (reachable_run toEvidence) eq_refl)
    as (_ & _ & H).
  exact H.
Defined.

(** An event that runs [handleSend] does nothing, only fills the text box,
    or acts as the submission of the text the box held. *)
Lemma submit_like (s : App) (e : Event) (env : Env) :
  submitEnv e = Some env ->
  step s e = s
  \/ (exists v, step s e = step s (Typed v))
  \/ step s e = step s (Submit env).
Proof.
  destruct e; try discriminate; intros [= ->]; cbn [step].
  - auto.
  - destruct (currentDocket s); [auto|]. destruct (nth_error suggestions k) as [v|]; [|auto].
    rewrite handleSend_after_setInput. destruct (isEmpty (trim (input s))); eauto.
  - destruct (isSome (currentDocket s) && truthy (pendingPodImage s)); [|auto].
    rewrite handleSend_after_setInput. destruct (isEmpty (trim (input s))); eauto.
Qed.

Lemma submit_cases (s : App) (env : Env) :
  step s (Submit env) = s
  \/ (isEmpty (trim (input s)) = false /\ classify (trim (input s)) = Freeform)
  \/ classify (trim (input s)) = RequestCommit
  \/ exists id, classify (trim (input s)) = DocketLookup id.
Proof.
  destruct (isEmpty (trim (input s))) eqn:Hne.
  - left. cbn [step]. act. now rewrite Hne.
  - right. destruct (classify (trim (input s))); eauto.
Qed.

Lemma step_docket (s : App) (e : Event) :
  currentDocket (step s e) = currentDocket s
  \/ (e = Reset /\ currentDocket (step s e) = None)
  \/ exists env d id,
       submitEnv e = Some env
       /\ classify (trim (input s)) = DocketLookup id
       /\ getReply env = GetOk d
       /\ currentDocket (step s e) = Some d.
Proof.
  destruct (submitEnv e) as [env|] eqn:He.
  - destruct (submit_like s e env He) as [H | [(v & H) | H]]; rewrite H;
      try (left; reflexivity).
    destruct (submit_cases s env) as [H0 | [[Hne Hc] | [Hc | (id & Hc)]]].
    + left. now rewrite H0.
    + left. cbn [step]. now rewrite (handleSend_freeform s env Hne Hc).
    + left. cbn [step]. rewrite (handleSend_commit s env Hc). cbv zeta.
      destruct (currentDocket s); [destruct (truthy (pendingPodImage s))|]; reflexivity.
    + cbn [step]. rewrite (handleSend_lookup s env id Hc). cbv zeta. fields.
      destruct (getReply env) as [d| |] eqn:Hg; try (left; reflexivity).
      right. right. exists env, d, id. now repeat split.
  - destruct e; try discriminate; cbn [step].
    + left. reflexivity.
    + left. now destruct (handleFileUpload_frame s file i1 i2 s).
    + left. destruct (nth_error (inflight s) k) as [j|] eqn:Hk; [|reflexivity].
      change (exec (setInflight (removeNth k);; analyzePOD_resume j reply) s)
        with (exec (analyzePOD_resume j reply) (exec (setInflight (removeNth k)) s)).
      now rewrite analyzePOD_resume_docket.
    + right. left. split; [reflexivity|].
      destruct (currentDocket s) eqn:Hd; [reflexivity | exact Hd].
Qed.

(** The active docket changes in two ways only: a reset empties it, and a
    lookup that the store answers with a docket replaces it by that
    docket. *)
Theorem docket_changes_only_by (s : App) (e : Event) :
  currentDocket (step s e) <> currentDocket s ->
  (e = Reset /\ currentDocket (step s e) = None)
  \/ exists env d id,
       submitEnv e = Some env
       /\ classify (trim (input s)) = DocketLookup id
       /\ getReply env = GetOk d
       /\ currentDocket (step s e) = Some d.
Proof.
  intros Hch. destruct (step_docket s e) as [H | [H | H]]; [contradiction | auto | auto].
Qed.

Lemma docket_changes_only_by_witness :
  (Submit (serving "u3" "a3" dkt1002) = Reset
   /\ currentDocket (step (step atEvidence (Typed "dkt-1002"))
                          (Submit (serving "u3" "a3" dkt1002))) = None)
  \/ exists env d id,
       submitEnv (Submit (serving "u3" "a3" dkt1002)) = Some env
       /\ classify (trim (input (step atEvidence (Typed "dkt-1002")))) = DocketLookup id
       /\ getReply env = GetOk d
       /\ currentDocket (step (step atEvidence (Typed "dkt-1002"))
                              (Submit (serving "u3" "a3" dkt1002))) = Some d.
Proof.
  apply (docket_changes_only_by (step atEvidence (Typed "dkt-1002"))
           (Submit (serving "u3" "a3" dkt1002))).
  vm_compute. discriminate.
Defined.

(** The pending evidence changes in two ways only: a commit request that
    the store accepts clears it, and an answer of the vision model whose
    text holds the marker sets it to the image of the answered job. *)
Theorem evidence_changes_only_by (s : App) (e : Event) :
  pendingPodImage (step s e) <> pendingPodImage s ->
  (exists env d,
     submitEnv e = Some env
     /\ classify (trim (input s)) = RequestCommit
     /\ currentDocket s = Some d
     /\ postReply env = PostReplied true
     /\ pendingPodImage (step s e) = None)
  \/ exists k j t,
       e = Answer k (GenReturns (Some t))
       /\ nth_error (inflight s) k = Some j
       /\ includes "pod is good" (toLowerCase t) = true
       /\ pendingPodImage (step s e) = Some (base64Image j).
Proof.
  intros Hch.
  destruct (submitEnv e) as [env|] eqn:He.
  - left. exists env.
    destruct (submit_like s e env He) as [H | [(v & H) | H]]; rewrite H in Hch |- *;
      try (contradiction Hch; reflexivity).
    destruct (submit_cases s env) as [H0 | [[Hne Hc] | [Hc | (id & Hc)]]].
    + rewrite H0 in Hch. now contradiction Hch.
    + cbn [step] in Hch. rewrite (handleSend_freeform s env Hne Hc) in Hch.
      now contradiction Hch.
    + cbn [step] in Hch |- *. rewrite (handleSend_commit s env Hc) in Hch |- *.
      cbv zeta in Hch |- *.
      destruct (currentDocket s) as [d|]; [|now contradiction Hch].
      destruct (truthy (pendingPodImage s)); [|now contradiction Hch].
      destruct (postReply env) as [[]|]; try (now contradiction Hch).
      exists d. now repeat split.
    + cbn [step] in Hch. rewrite (handleSend_lookup s env id Hc) in Hch.
      now contradiction Hch.
  - right. destruct e; try discriminate; cbn [step] in Hch.
    + contradiction Hch. reflexivity.
    + contradiction Hch. now destruct (handleFileUpload_frame s file i1 i2 s) as (_ & ? & _).
    + destruct (nth_error (inflight s) k) as [j|] eqn:Hk; [|now contradiction Hch].
      pose proof (step_answer s k j reply Hk) as H. cbn [step] in H. rewrite Hk in H.
      rewrite H in Hch. cbv zeta in Hch. cbn [pendingPodImage] in Hch.
      rewrite (step_answer s k j reply Hk). cbv zeta. fields.
      destruct reply as [[[|c t]|]|]; try (now contradiction Hch).
      cbn [orElse] in Hch |- *.
      destruct (includes "pod is good" (toLowerCase (String c t))) eqn:Hm;
        [|now contradiction Hch].
      exists k, j, (String c t). now repeat split.
    + contradiction Hch. now destruct (isSome (currentDocket s)).
Qed.

Lemma evidence_changes_only_by_witness :
  (exists env d,
     submitEnv (Answer 0 (GenReturns (Some goodVerdict))) = Some env
     /\ classify (trim (input atAnalysing)) = RequestCommit
     /\ currentDocket atAnalysing = Some d
     /\ postReply env = PostReplied true
     /\ pendingPodImage (step atAnalysing (Answer 0 (GenReturns (Some goodVerdict)))) = None)
  \/ exists k j t,
       Answer 0 (GenReturns (Some goodVerdict)) = Answer k (GenReturns (Some t))
       /\ nth_error (inflight atAnalysing) k = Some j
       /\ includes "pod is good" (toLowerCase t) = true
       /\ pendingPodImage (step atAnalysing (Answer 0 (GenReturns (Some goodVerdict))))
          = Some (base64Image j).
Proof.
  apply (evidence_changes_only_by atAnalysing (Answer 0 (GenReturns (Some goodVerdict)))).
  vm_compute. discriminate.
Defined.

(** ** The server *)

Import Server.

Lemma selectById_some (id : string) (db : Table) (row : Docket.t) :
  selectById id db = Some row -> In row db /\ Docket.id row = id.
Proof.
  intros H. apply find_some in H as [Hin Heq]. now apply String.eqb_eq in Heq.
Qed.

Lemma selectById_none (id : string) (db : Table) :
  selectById id db = None <-> ~ In id (map Docket.id db).
Proof.
  unfold selectById. induction db as [|r db IH]; cbn [find map In]; [tauto|].
  destruct (String.eqb_spec (Docket.id r) id) as [E|E].
  - split; [discriminate | intros H; contradiction H; now left].
  - rewrite IH. tauto.
Qed.

Lemma changes_zero (id : string) (db : Table) :
  changes id db = 0 <-> ~ In id (map Docket.id db).
Proof.
  unfold changes. induction db as [|r db IH]; cbn [filter map In length]; [tauto|].
  destruct (String.eqb_spec (Docket.id r) id) as [E|E]; cbn [length].
  - split; [discriminate | intros H; contradiction H; now left].
  - rewrite IH. tauto.
Qed.

Lemma updateWhere_missing (status : string) (v : nat) (now id : string) (db : Table) :
  ~ In id (map Docket.id db) -> updateWhere status v now id db = db.
Proof.
  unfold updateWhere. induction db as [|r db IH]; cbn [map In]; [reflexivity|].
  intros H. destruct (String.eqb_spec (Docket.id r) id) as [E|E]; [tauto|].
  rewrite IH; tauto.
Qed.

Lemma updateWhere_identity (status : string) (v : nat) (now id : string) (db : Table) :
  map identity (updateWhere status v now id db) = map identity db.
Proof.
  unfold updateWhere. rewrite map_map. apply map_ext. intros r.
  now destruct (String.eqb (Docket.id r) id).
Qed.

Lemma updateWhere_ids (status : string) (v : nat) (now id : string) (db : Table) :
  map Docket.id (updateWhere status v now id db) = map Docket.id db.
Proof.
  unfold updateWhere. rewrite map_map. apply map_ext. intros r.
  now destruct (String.eqb (Docket.id r) id).
Qed.

Lemma selectById_updateWhere (status : string) (v : nat) (now id id' : string) (db : Table) :
  selectById id' (updateWhere status v now id db)
  = match selectById id' db with
    | Some row =>
        Some (if String.eqb id' id
              then Docket.mk (Docket.id row) (Docket.customer_name row)
                     (Docket.delivery_address row) status v now
              else row)
    | None => None
    end.
Proof.
  unfold selectById, updateWhere. induction db as [|r db IH]; [reflexivity|].
  cbn [map find].
  destruct (String.eqb_spec (Docket.id r) id) as [E|E]; cbn [Docket.id].
  - destruct (String.eqb_spec (Docket.id r) id') as [E'|E']; [|exact IH].
    rewrite <- E', <- E, String.eqb_refl. reflexivity.
  - destruct (String.eqb_spec (Docket.id r) id') as [E'|E']; [|exact IH].
    destruct (String.eqb_spec id' id) as [E2|_]; [congruence | reflexivity].
Qed.

(** [GET /api/dockets/:id] answers 200 exactly for the identifiers of the
    table, with a row of the table that bears the identifier asked for, and
    404 for every other identifier. *)
Theorem server_get_spec (db : Table) (id : string) :
  (In id (map Docket.id db) ->
   exists row, getDocket db id = Ok200 row /\ In row db /\ Docket.id row = id)
  /\ (~ In id (map Docket.id db) -> getDocket db id = NotFound404).
Proof.
  unfold getDocket. split; intros H.
  - destruct (selectById id db) as [row|] eqn:E.
    + exists row. split; [reflexivity|]. exact (selectById_some _ _ _ E).
    + apply selectById_none in E. contradiction.
  - apply selectById_none in H. now rewrite H.
Qed.

Lemma server_get_spec_witness :
  exists row, getDocket seededTable "DKT-1002" = Ok200 row
              /\ In row seededTable /\ Docket.id row = "DKT-1002".
Proof.
  apply (proj1 (server_get_spec seededTable "DKT-1002")).
  right. left. reflexivity.
Defined.

Lemma postUpdate_table (db : Table) (now id status : string) (verified : bool) :
  fst (postUpdate db now id status verified)
  = updateWhere status (if verified then 1 else 0) now id db.
Proof. unfold postUpdate. now destruct (0 <? changes id db)%nat. Qed.

Lemma postUpdate_hit (db : Table) (now id status : string) (verified : bool) :
  In id (map Docket.id db) ->
  exists row,
    getDocket db id = Ok200 row
    /\ snd (postUpdate db now id status verified) = Ok200 tt
    /\ getDocket (fst (postUpdate db now id status verified)) id
       = Ok200 (Docket.mk id (Docket.customer_name row) (Docket.delivery_address row)
                  status (if verified then 1 else 0) now).
Proof.
  intros Hin. unfold postUpdate, getDocket.
  destruct (selectById id db) as [row|] eqn:E;
    [|apply selectById_none in E; contradiction].
  exists row. split; [reflexivity|].
  destruct (changes id db) as [|n] eqn:Hc;
    [apply changes_zero in Hc; contradiction|].
  cbn [Nat.ltb Nat.leb fst snd]. split; [reflexivity|].
  rewrite selectById_updateWhere, E, String.eqb_refl.
  now rewrite (proj2 (selectById_some _ _ _ E)).
Qed.

(** An update of an identifier of the table answers 200, and a GET of that
    identifier then returns the row with the status sent, pod_verified 1 or
    0 as the flag sent, the time of the update, and the customer and
    address it had. *)
Theorem server_update_then_get (db : Table) (now id status : string) (verified : bool) :
  In id (map Docket.id db) ->
  exists row,
    getDocket db id = Ok200 row
    /\ snd (postUpdate db now id status verified) = Ok200 tt
    /\ getDocket (fst (postUpdate db now id status verified)) id
       = Ok200 (Docket.mk id (Docket.customer_name row) (Docket.delivery_address row)
                  status (if verified then 1 else 0) now).
Proof. apply postUpdate_hit. Qed.

Lemma server_update_then_get_witness :
  snd (postUpdate seededTable "2024-06-01 12:00:00" "DKT-1001" "Delivered" true) = Ok200 tt.
Proof.
  destruct (server_update_then_get seededTable "2024-06-01 12:00:00" "DKT-1001"
              "Delivered" true (or_introl eq_refl)) as (row & _ & H & _).
  exact H.
Defined.

(** An update of an identifier that is not in the table answers 404 and
    leaves the table as it was. *)
Theorem server_update_missing (db : Table) (now id status : string) (verified : bool) :
  ~ In id (map Docket.id db) ->
  postUpdate db now id status verified = (db, NotFound404).
Proof.
  intros H. unfold postUpdate.
  rewrite (updateWhere_missing _ _ _ _ _ H), (proj2 (changes_zero id db) H).
  reflexivity.
Qed.

Lemma server_update_missing_witness :
  postUpdate seededTable "2024-06-01 12:00:00" "DKT-9999" "Delivered" true
  = (seededTable, NotFound404).
Proof.
  apply (server_update_missing seededTable).
  vm_compute. intros [H|[H|[H|[]]]]; discriminate H.
Defined.

(** An update never adds or removes a row and never changes identifier,
    customer or address of one; a GET of any other identifier returns what
    it returned before; identifiers that were pairwise distinct stay so. *)
Theorem server_update_frame (db : Table) (now id status : string) (verified : bool) :
  let db' := fst (postUpdate db now id status verified) in
  map identity db' = map identity db
  /\ (forall id', id' <> id -> getDocket db' id' = getDocket db id')
  /\ (NoDup (map Docket.id db) -> NoDup (map Docket.id db')).
Proof.
  unfold postUpdate. destruct (0 <? changes id db)%nat; cbn [fst].
  all: split; [apply updateWhere_identity|]; split.
  all: try (rewrite updateWhere_ids; auto).
  all: intros id' Hne; unfold getDocket; rewrite selectById_updateWhere;
    destruct (String.eqb_spec id' id) as [E|_]; [contradiction|];
    now destruct (selectById id' db).
Qed.

(** Seeding stores the three sample dockets, pending and not verified, in
    an empty table and leaves any other table alone: a table that went
    through it is not seeded again, so a restart of the server keeps what
    was stored. *)
Theorem server_seed_once (t1 t2 t3 u1 u2 u3 : string) (db : Table) :
  map (fun r => (identity r, Docket.status r, Docket.pod_verified r)) (seed t1 t2 t3 [])
  = [ (("DKT-1001", "John Doe", "123 Maple St, Springfield"), "Pending", 0);
      (("DKT-1002", "Jane Smith", "456 Oak Ave, Metropolis"), "Pending", 0);
      (("DKT-1003", "Acme Corp", "789 Industrial Way, Gotham"), "Pending", 0) ]
  /\ (db <> [] -> seed t1 t2 t3 db = db)
  /\ seed u1 u2 u3 (seed t1 t2 t3 db) = seed t1 t2 t3 db.
Proof.
  split; [reflexivity|]. split.
  - destruct db; [congruence | reflexivity].
  - destruct db; reflexivity.
Qed.

Lemma server_seed_once_witness :
  seed "a" "b" "c" seededTable = seededTable.
Proof.
  apply (proj1 (proj2 (server_seed_once "a" "b" "c" "a" "b" "c" seededTable))).
  discriminate.
Defined.

(** ** Component and server together *)

Lemma sentSince_app (s s' : App) (sent : list Request) :
  requests s' = (requests s ++ sent)%list -> sentSince s s' = sent.
Proof.
  intros H. unfold sentSince. rewrite H, skipn_app, skipn_all, Nat.sub_diag.
  reflexivity.
Qed.

Lemma sentSince_same (s s' : App) : requests s' = requests s -> sentSince s s' = [].
Proof. intros H. apply sentSince_app. now rewrite app_nil_r. Qed.

Lemma sysRun_snoc (y : System) (acts : list Action) (a : Action) :
  sysRun y (acts ++ [a]) = sysStep (sysRun y acts) a.
Proof. unfold sysRun. now rewrite fold_left_app. Qed.

Lemma eventOf_env (y : System) (a : Action) :
  submitEnv (eventOf y a)
  = option_map (fun w => envFor w (table y) (app y)) (wireOf a).
Proof. now destruct a. Qed.

Lemma fetchPost_table (n : Net) (db : Table) (now id status : string) (verified : bool) :
  fst (fetchPost n db now id status verified)
  = match n with
    | Down => db
    | Up | ReplyLost => updateWhere status (if verified then 1 else 0) now id db
    end.
Proof.
  destruct n; cbn [fetchPost]; rewrite <- ?postUpdate_table; try reflexivity.
  now destruct (postUpdate db now id status verified).
Qed.

Lemma deliver_identity (w : Wire) (sent : list Request) (db : Table) :
  map identity (fold_left (deliver w) sent db) = map identity db.
Proof.
  revert db. induction sent as [|q sent IH]; intros db; [reflexivity|].
  cbn [fold_left]. rewrite IH. destruct q; try reflexivity.
  cbn [deliver]. rewrite fetchPost_table.
  destruct (net w); auto using updateWhere_identity.
Qed.

Lemma sysStep_identity (y : System) (a : Action) :
  map identity (table (sysStep y a)) = map identity (table y).
Proof.
  unfold sysStep. cbn [table]. destruct (wireOf a); [apply deliver_identity | reflexivity].
Qed.

Lemma identity_ids (db db' : Table) :
  map identity db' = map identity db -> map Docket.id db' = map Docket.id db.
Proof.
  intros H. apply (f_equal (map (fun t : string * string * string => fst (fst t)))) in H.
  now rewrite !map_map in H.
Qed.

(** The requests of a submission and the table they leave, by the kind of
    the message. *)
Lemma submit_sent (s : App) (env : Env) :
  sentSince s (step s (Submit env))
  = if isEmpty (trim (input s)) then []
    else match classify (trim (input s)) with
         | RequestCommit =>
             match currentDocket s with
             | Some d =>
                 if truthy (pendingPodImage s)
                 then [PostUpdate (Docket.id d) "Delivered" true]
                 else []
             | None => []
             end
         | DocketLookup id => [GetDocket id]
         | Freeform => [GenerateText (trim (input s))]
         end.
Proof.
  destruct (isEmpty (trim (input s))) eqn:Hne.
  - apply sentSince_same. cbn [step]. act. now rewrite Hne.
  - cbn [step]. destruct (classify (trim (input s))) as [|id|] eqn:Hc.
    + rewrite (handleSend_commit s env Hc). cbv zeta.
      destruct (currentDocket s) as [d|]; [destruct (truthy (pendingPodImage s))|];
        first [apply sentSince_same; reflexivity | apply sentSince_app; reflexivity].
    + rewrite (handleSend_lookup s env id Hc). now apply sentSince_app.
    + rewrite (handleSend_freeform s env Hne Hc). now apply sentSince_app.
Qed.

(** The replies [handleSend] consumes are the replies of the server, on the
    table of the moment, to the very request it sends. *)
Theorem replies_come_from_server (y : System) (w : Wire) (q : Request) :
  let env := envFor w (table y) (app y) in
  In q (sentSince (app y) (step (app y) (Submit env))) ->
  match q with
  | GetDocket id => getReply env = fetchGet (net w) (table y) id
  | PostUpdate id status verified =>
      postReply env = snd (fetchPost (net w) (table y) (clock w) id status verified)
  | GenerateText _ => genReply env = gen w
  | GenerateVision _ _ _ _ => False
  end.
Proof.
  cbv zeta. rewrite submit_sent.
  destruct (isEmpty (trim (input (app y)))); [intros []|].
  destruct (classify (trim (input (app y)))) as [|id|] eqn:Hc.
  - destruct (currentDocket (app y)) as [d|] eqn:Hd; [|intros []].
    destruct (truthy (pendingPodImage (app y))); [|intros []].
    intros [<-|[]]. cbn [envFor postReply]. now rewrite Hd.
  - intros [<-|[]]. apply classify_lookup in Hc as (_ & m & Hm & ->).
    cbn [envFor getReply]. now rewrite Hm.
  - intros [<-|[]]. reflexivity.
Qed.

Lemma replies_come_from_server_witness :
  postReply (envFor (online "u3" "a3") seededTable (step atEvidence (Typed "please update")))
  = snd (fetchPost Up seededTable "2024-06-01 12:00:00" "DKT-1001" "Delivered" true).
Proof.
  apply (replies_come_from_server
           {| app := step atEvidence (Typed "please update"); table := seededTable |}
           (online "u3" "a3") (PostUpdate "DKT-1001" "Delivered" true)).
  left. reflexivity.
Defined.

Lemma sysStep_table (y : System) (a : Action) :
  table (sysStep y a) = table y
  \/ exists w d,
       wireOf a = Some w
       /\ net w <> Down
       /\ classify (trim (input (app y))) = RequestCommit
       /\ currentDocket (app y) = Some d
       /\ truthy (pendingPodImage (app y)) = true
       /\ table (sysStep y a)
          = updateWhere "Delivered" 1 (clock w) (Docket.id d) (table y).
Proof.
  unfold sysStep. cbn [table].
  destruct (wireOf a) as [w|] eqn:Hw; [|auto].
  pose proof (eventOf_env y a) as He. rewrite Hw in He. cbn [option_map] in He.
  destruct (submit_like (app y) _ _ He) as [H | [(v & H) | H]]; rewrite H.
  - left. now rewrite sentSince_same.
  - left. now rewrite sentSince_same.
  - rewrite submit_sent.
    destruct (isEmpty (trim (input (app y)))); [auto|].
    destruct (classify (trim (input (app y)))) as [|id|] eqn:Hc; [|auto|auto].
    destruct (currentDocket (app y)) as [d|] eqn:Hd; [|auto].
    destruct (truthy (pendingPodImage (app y))) eqn:Hp; [|auto].
    cbn [fold_left deliver]. rewrite fetchPost_table.
    destruct (net w) eqn:Hn; [|auto|];
      right; exists w, d; rewrite Hn; repeat split; discriminate.
Qed.

(** The table is written in one case only: a commit request, with a docket
    active and evidence pending, that reaches the server; the write sets
    the row of the active docket to Delivered and verified, at the time of
    the server.  Whatever happens, no row is added or removed and no
    identifier, customer or address changes. *)
Theorem store_written_only_by_commit (y : System) (a : Action) :
  map identity (table (sysStep y a)) = map identity (table y)
  /\ (table (sysStep y a) <> table y ->
      exists w d,
        wireOf a = Some w
        /\ net w <> Down
        /\ classify (trim (input (app y))) = RequestCommit
        /\ currentDocket (app y) = Some d
        /\ truthy (pendingPodImage (app y)) = true
        /\ table (sysStep y a)
           = updateWhere "Delivered" 1 (clock w) (Docket.id d) (table y)).
Proof.
  split; [apply sysStep_identity|].
  intros Hch. destruct (sysStep_table y a) as [H|H]; [contradiction | exact H].
Qed.

Lemma store_written_only_by_commit_witness :
  exists w d,
    wireOf (ASubmit (online "u3" "a3")) = Some w
    /\ net w <> Down
    /\ classify (trim (input (step atEvidence (Typed "please update")))) = RequestCommit
    /\ currentDocket (step atEvidence (Typed "please update")) = Some d
    /\ truthy (pendingPodImage (step atEvidence (Typed "please update"))) = true
    /\ table (sysStep {| app := step atEvidence (Typed "please update");
                         table := seededTable |} (ASubmit (online "u3" "a3")))
       = updateWhere "Delivered" 1 (clock w) (Docket.id d) seededTable.
Proof.
  apply (proj2 (store_written_only_by_commit
                  {| app := step atEvidence (Typed "please update"); table := seededTable |}
                  (ASubmit (online "u3" "a3")))).
  vm_compute. discriminate.
Defined.

Lemma sysReachable_step (y : System) (a : Action) :
  sysReachable y -> sysReachable (sysStep y a).
Proof.
  intros (db & acts & ->). exists db, (acts ++ [a])%list. now rewrite sysRun_snoc.
Qed.

Lemma fetchGet_ok (n : Net) (db : Table) (id : string) (d : Docket.t) :
  fetchGet n db id = GetOk d ->
  n = Up /\ getDocket db id = Ok200 d /\ In d db /\ Docket.id d = id.
Proof.
  unfold fetchGet, getDocket. destruct n; try discriminate.
  destruct (selectById id db) as [row|] eqn:E; [|discriminate].
  intros [= <-]. destruct (selectById_some _ _ _ E). now repeat split.
Qed.

Lemma sys_docket_stored (y : System) (d : Docket.t) :
  sysReachable y ->
  currentDocket (app y) = Some d ->
  isDocketId (Docket.id d) = true
  /\ In (Docket.id d) (map Docket.id (table y)).
Proof.
  intros (db & acts & ->). revert d.
  induction acts as [|a acts IH] using rev_ind; [discriminate|].
  rewrite sysRun_snoc. set (y := sysRun (boot db) acts) in *.
  intros d Hd.
  rewrite (identity_ids _ _ (sysStep_identity y a)).
  change (app (sysStep y a)) with (step (app y) (eventOf y a)) in Hd.
  destruct (step_docket (app y) (eventOf y a))
    as [H | [[_ H] | (env & d' & id & He & Hc & Hg & H)]]; rewrite H in Hd.
  - exact (IH d Hd).
  - discriminate.
  - injection Hd as <-. rewrite eventOf_env in He.
    destruct (wireOf a) as [w|]; [|discriminate]. injection He as <-.
    pose proof (lookup_id_canonical_aux _ _ Hc) as Hid.
    apply classify_lookup in Hc as (_ & m & Hm & ->).
    cbn [envFor getReply] in Hg. rewrite Hm in Hg.
    apply fetchGet_ok in Hg as (_ & _ & Hin & Hdid).
    rewrite Hdid. split; [exact Hid|]. rewrite <- Hdid. now apply in_map.
Qed.

(** In every system that arises from a start of the server, the active
    docket bears an identifier in normal form that is an identifier of the
    table: what the component puts into the path of an update is made of
    capitals, a hyphen and digits, and names a row. *)
Theorem active_docket_is_stored (y : System) (d : Docket.t) :
  sysReachable y ->
  currentDocket (app y) = Some d ->
  isDocketId (Docket.id d) = true
  /\ In (Docket.id d) (map Docket.id (table y)).
Proof. apply sys_docket_stored. Qed.

Lemma active_docket_is_stored_witness :
  isDocketId "DKT-1002" = true /\ In "DKT-1002" (map Docket.id seededTable).
Proof.
  apply (active_docket_is_stored
           (sysRun (boot seededTable) [ATyped "dkt-1002 please"; ASubmit (online "u1" "a1")])
           (inserted "2024-01-01 00:00:00" "DKT-1002" "Jane Smith" "456 Oak Ave, Metropolis")).
  - now exists seededTable,
      [ATyped "dkt-1002 please"; ASubmit (online "u1" "a1")].
  - reflexivity.
Defined.

Lemma sysStep_submit (y : System) (w : Wire) :
  sysStep y (ASubmit w)
  = let env := envFor w (table y) (app y) in
    {| app := step (app y) (Submit env);
       table := fold_left (deliver w) (sentSince (app y) (step (app y) (Submit env)))
                  (table y) |}.
Proof. reflexivity. Qed.

Lemma fetchPost_reply (n : Net) (db : Table) (now id status : string) (verified : bool) :
  snd (fetchPost n db now id status verified)
  = match n with
    | Up => PostReplied (match snd (postUpdate db now id status verified) with
                         | Ok200 _ => true
                         | NotFound404 => false
                         end)
    | Down | ReplyLost => PostThrows
    end.
Proof.
  destruct n; cbn [fetchPost]; try reflexivity.
  now destruct (postUpdate db now id status verified).
Qed.

Lemma commit_up (y : System) (w : Wire) (d : Docket.t) :
  sysReachable y ->
  currentDocket (app y) = Some d ->
  truthy (pendingPodImage (app y)) = true ->
  classify (trim (input (app y))) = RequestCommit ->
  net w = Up ->
  let y' := sysStep y (ASubmit w) in
  exists row,
    getDocket (table y) (Docket.id d) = Ok200 row
    /\ getDocket (table y') (Docket.id d)
       = Ok200 (Docket.mk (Docket.id d) (Docket.customer_name row)
                  (Docket.delivery_address row) "Delivered" 1 (clock w))
    /\ pendingPodImage (app y') = None
    /\ currentDocket (app y') = Some d
    /\ messages (app y') =
       (messages (app y)
        ++ [Message.mk (fresh1 w) user (trim (input (app y))) None None;
            Message.mk (fresh2 w) assistant (updatedText d) None None])%list.
Proof.
  intros Hr Hd Hp Hc Hn.
  destruct (sys_docket_stored y d Hr Hd) as [_ Hin].
  destruct (postUpdate_hit (table y) (clock w) (Docket.id d) "Delivered" true Hin)
    as (row & Hg & Hok & Hg').
  cbv zeta. rewrite sysStep_submit. cbv zeta. cbn [app table].
  rewrite submit_sent, (classify_nonempty _ ltac:(rewrite Hc; discriminate)), Hc, Hd, Hp.
  cbn [fold_left deliver]. rewrite Hn. cbn [fetchPost].
  exists row. split; [exact Hg|]. split.
  { destruct (postUpdate (table y) (clock w) (Docket.id d) "Delivered" true); exact Hg'. }
  cbn [step]. rewrite (handleSend_commit _ _ Hc). cbv zeta. rewrite Hd, Hp.
  cbn [envFor postReply]. rewrite Hd, fetchPost_reply, Hn, Hok. fields.
  rewrite <- app_assoc. repeat split.
Qed.

(** Over a working network, in a system that arose from a start of the
    server, a commit request with a docket active and evidence pending
    always succeeds: the row of the docket becomes Delivered and verified,
    with customer and address as they were, the evidence is cleared, the
    docket stays active and the assistant reports the update. *)
Theorem commit_end_to_end (y : System) (w : Wire) (d : Docket.t) :
  sysReachable y ->
  currentDocket (app y) = Some d ->
  truthy (pendingPodImage (app y)) = true ->
  classify (trim (input (app y))) = RequestCommit ->
  net w = Up ->
  let y' := sysStep y (ASubmit w) in
  exists row,
    getDocket (table y) (Docket.id d) = Ok200 row
    /\ getDocket (table y') (Docket.id d)
       = Ok200 (Docket.mk (Docket.id d) (Docket.customer_name row)
                  (Docket.delivery_address row) "Delivered" 1 (clock w))
    /\ pendingPodImage (app y') = None
    /\ currentDocket (app y') = Some d
    /\ messages (app y') =
       (messages (app y)
        ++ [Message.mk (fresh1 w) user (trim (input (app y))) None None;
            Message.mk (fresh2 w) assistant (updatedText d) None None])%list.
Proof. apply commit_up. Qed.

Lemma commit_end_to_end_witness :
  pendingPodImage
    (app (sysStep
            (sysRun (boot seededTable)
               [ATyped "DKT-1001"; ASubmit (online "u1" "a1");
                AFile (Some (ReadOk jpeg)) "u2" "a2";
                AAnswer 0 (GenReturns (Some goodVerdict));
                ATyped "please update"])
            (ASubmit (online "u3" "a3")))) = None.
Proof.
  destruct (commit_end_to_end
              (sysRun (boot seededTable)
                 [ATyped "DKT-1001"; ASubmit (online "u1" "a1");
                  AFile (Some (ReadOk jpeg)) "u2" "a2";
                  AAnswer 0 (GenReturns (Some goodVerdict));
                  ATyped "please update"])
              (online "u3" "a3")
              (inserted "2024-01-01 00:00:00" "DKT-1001" "John Doe" "123 Maple St, Springfield"))
    as (row & _ & _ & H & _).
  - now exists seededTable,
      [ATyped "DKT-1001"; ASubmit (online "u1" "a1");
       AFile (Some (ReadOk jpeg)) "u2" "a2";
       AAnswer 0 (GenReturns (Some goodVerdict));
       ATyped "please update"].
  - reflexivity.
  - reflexivity.
  - reflexivity.
  - reflexivity.
  - exact H.
Defined.

(** When the commit request does not get through, the session keeps docket
    and evidence and the assistant asks to try again; the table is as it
    was when the request did not reach the server, but holds the update,
    unknown to the session, when only the response was lost. *)
Theorem commit_over_failing_network (y : System) (w : Wire) (d : Docket.t) :
  sysReachable y ->
  currentDocket (app y) = Some d ->
  truthy (pendingPodImage (app y)) = true ->
  classify (trim (input (app y))) = RequestCommit ->
  net w <> Up ->
  let y' := sysStep y (ASubmit w) in
  pendingPodImage (app y') = pendingPodImage (app y)
  /\ currentDocket (app y') = Some d
  /\ messages (app y') =
     (messages (app y)
      ++ [Message.mk (fresh1 w) user (trim (input (app y))) None None;
          Message.mk (fresh2 w) assistant
            "Failed to update the docket. Please try again." None None])%list
  /\ (net w = Down -> table y' = table y)
  /\ (net w = ReplyLost ->
      exists row,
        getDocket (table y) (Docket.id d) = Ok200 row
        /\ getDocket (table y') (Docket.id d)
           = Ok200 (Docket.mk (Docket.id d) (Docket.customer_name row)
                      (Docket.delivery_address row) "Delivered" 1 (clock w))).
Proof.
  intros Hr Hd Hp Hc Hn.
  destruct (sys_docket_stored y d Hr Hd) as [_ Hin].
  destruct (postUpdate_hit (table y) (clock w) (Docket.id d) "Delivered" true Hin)
    as (row & Hg & Hok & Hg').
  cbv zeta. rewrite sysStep_submit. cbv zeta. cbn [app table].
  rewrite submit_sent, (classify_nonempty _ ltac:(rewrite Hc; discriminate)), Hc, Hd, Hp.
  cbn [fold_left deliver].
  cbn [step]. rewrite (handleSend_commit _ _ Hc). cbv zeta. rewrite Hd, Hp.
  cbn [envFor postReply]. rewrite Hd, fetchPost_reply.
  destruct (net w) eqn:Hnet; [contradiction Hn; reflexivity | |];
    fields; rewrite <- app_assoc; repeat split; try discriminate.
  intros _. exists row. split; [exact Hg|]. cbn [fetchPost fst]. exact Hg'.
Qed.

Lemma commit_over_failing_network_witness :
  pendingPodImage
    (app (sysStep
            (sysRun (boot seededTable)
               [ATyped "DKT-1001"; ASubmit (online "u1" "a1");
                AFile (Some (ReadOk jpeg)) "u2" "a2";
                AAnswer 0 (GenReturns (Some goodVerdict));
                ATyped "please update"])
            (ASubmit {| net := ReplyLost; clock := "2024-06-01 12:00:00";
                        fresh1 := "u3"; fresh2 := "a3"; gen := GenThrows |})))
  = Some photo.
Proof.
  destruct (commit_over_failing_network
              (sysRun (boot seededTable)
                 [ATyped "DKT-1001"; ASubmit (online "u1" "a1");
                  AFile (Some (ReadOk jpeg)) "u2" "a2";
                  AAnswer 0 (GenReturns (Some goodVerdict));
                  ATyped "please update"])
              {| net := ReplyLost; clock := "2024-06-01 12:00:00";
                 fresh1 := "u3"; fresh2 := "a3"; gen := GenThrows |}
              (inserted "2024-01-01 00:00:00" "DKT-1001" "John Doe" "123 Maple St, Springfield"))
    as (H & _).
  - now exists seededTable,
      [ATyped "DKT-1001"; ASubmit (online "u1" "a1");
       AFile (Some (ReadOk jpeg)) "u2" "a2";
       AAnswer 0 (GenReturns (Some goodVerdict));
       ATyped "please update"].
  - reflexivity.
  - reflexivity.
  - reflexivity.
  - discriminate.
  - exact H.
Defined.

Lemma lookup_sys (y : System) (w : Wire) (id : string) :
  classify (trim (input (app y))) = DocketLookup id ->
  let y' := sysStep y (ASubmit w) in
  table y' = table y
  /\ pendingPodImage (app y') = pendingPodImage (app y)
  /\ currentDocket (app y') =
     match net w, getDocket (table y) id with
     | Up, Ok200 row => Some row
     | _, _ => currentDocket (app y)
     end
  /\ (forall row, net w = Up -> getDocket (table y) id = Ok200 row ->
                  Docket.id row = id /\ In row (table y)).
Proof.
  intros Hc. cbv zeta. rewrite sysStep_submit. cbv zeta. cbn [app table].
  rewrite submit_sent, (classify_nonempty _ ltac:(rewrite Hc; discriminate)), Hc.
  cbn [fold_left deliver]. split; [reflexivity|].
  cbn [step]. rewrite (handleSend_lookup _ _ id Hc). cbv zeta. fields.
  split; [reflexivity|].
  pose proof Hc as Hc'. apply classify_lookup in Hc' as (_ & m & Hm & ->).
  cbn [envFor getReply]. rewrite Hm. split.
  - unfold fetchGet. destruct (net w); try reflexivity.
    now destruct (getDocket (table y) (toUpperCase m)).
  - intros row _ Hg. unfold getDocket in Hg.
    destruct (selectById (toUpperCase m) (table y)) as [r|] eqn:E; [|discriminate].
    injection Hg as <-. destruct (selectById_some _ _ _ E). now split.
Qed.

(** A lookup never writes the table and never touches the evidence; over a
    working network it makes the row that bears the identifier the active
    docket when there is one, and otherwise, as over a failing network, it
    leaves the active docket as it was. *)
Theorem lookup_end_to_end (y : System) (w : Wire) (id : string) :
  classify (trim (input (app y))) = DocketLookup id ->
  let y' := sysStep y (ASubmit w) in
  table y' = table y
  /\ pendingPodImage (app y') = pendingPodImage (app y)
  /\ currentDocket (app y') =
     match net w, getDocket (table y) id with
     | Up, Ok200 row => Some row
     | _, _ => currentDocket (app y)
     end
  /\ (forall row, net w = Up -> getDocket (table y) id = Ok200 row ->
                  Docket.id row = id /\ In row (table y)).
Proof. apply lookup_sys. Qed.

Lemma lookup_end_to_end_witness :
  table (sysStep (sysStep (boot seededTable) (ATyped "dkt-1003"))
                 (ASubmit (online "u1" "a1")))
  = table (sysStep (boot seededTable) (ATyped "dkt-1003")).
Proof.
  exact (proj1 (lookup_end_to_end (sysStep (boot seededTable) (ATyped "dkt-1003"))
                  (online "u1" "a1") "DKT-1003" eq_refl)).
Defined.

(** The commit does not refresh the docket the session holds: after it the
    active docket is still the row as it was looked up.  Looking the docket
    up again, over a working network, then shows the row as the commit left
    it, Delivered and verified at the time of the commit. *)
Theorem commit_then_lookup_refreshes (y : System) (w w' : Wire) (d : Docket.t) :
  sysReachable y ->
  currentDocket (app y) = Some d ->
  truthy (pendingPodImage (app y)) = true ->
  classify (trim (input (app y))) = RequestCommit ->
  net w = Up -> net w' = Up ->
  let y1 := sysStep y (ASubmit w) in
  let y2 := sysRun y1 [ATyped (Docket.id d); ASubmit w'] in
  currentDocket (app y1) = Some d
  /\ exists row,
       getDocket (table y) (Docket.id d) = Ok200 row
       /\ currentDocket (app y2)
          = Some (Docket.mk (Docket.id d) (Docket.customer_name row)
                    (Docket.delivery_address row) "Delivered" 1 (clock w)).
Proof.
  intros Hr Hd Hp Hc Hn Hn'.
  destruct (commit_up y w d Hr Hd Hp Hc Hn) as (row & Hg & Hg1 & _ & Hd1 & _).
  destruct (sys_docket_stored y d Hr Hd) as [Hid _].
  destruct (docketId_classified _ Hid) as [Ht Hcl].
  cbv zeta. split; [exact Hd1|]. exists row. split; [exact Hg|].
  set (y1 := sysStep y (ASubmit w)) in *.
  cbn [sysRun fold_left].
  set (y1' := sysStep y1 (ATyped (Docket.id d))).
  assert (Hc' : classify (trim (input (app y1'))) = DocketLookup (Docket.id d))
    by (change (input (app y1')) with (Docket.id d); now rewrite Ht).
  destruct (lookup_sys y1' w' (Docket.id d) Hc') as (_ & _ & H & _).
  rewrite H, Hn'. change (table y1') with (table y1). now rewrite Hg1.
Qed.

Lemma commit_then_lookup_refreshes_witness :
  currentDocket
    (app (sysStep
            (sysRun (boot seededTable)
               [ATyped "DKT-1001"; ASubmit (online "u1" "a1");
                AFile (Some (ReadOk jpeg)) "u2" "a2";
                AAnswer 0 (GenReturns (Some goodVerdict));
                ATyped "please update"])
            (ASubmit (online "u3" "a3"))))
  = Some (inserted "2024-01-01 00:00:00" "DKT-1001" "John Doe" "123 Maple St, Springfield").
Proof.
  destruct (commit_then_lookup_refreshes
              (sysRun (boot seededTable)
                 [ATyped "DKT-1001"; ASubmit (online "u1" "a1");
                  AFile (Some (ReadOk jpeg)) "u2" "a2";
                  AAnswer 0 (GenReturns (Some goodVerdict));
                  ATyped "please update"])
              (online "u3" "a3") (online "u4" "a4")
              (inserted "2024-01-01 00:00:00" "DKT-1001" "John Doe" "123 Maple St, Springfield"))
    as (H & _).
  - now exists seededTable,
      [ATyped "DKT-1001"; ASubmit (online "u1" "a1");
       AFile (Some (ReadOk jpeg)) "u2" "a2";
       AAnswer 0 (GenReturns (Some goodVerdict));
       ATyped "please update"].
  - reflexivity.
  - reflexivity.
  - reflexivity.
  - reflexivity.
  - reflexivity.
  - exact H.
Defined.
